(** * The WARP charger adapter (firmware v2), [charger/warp2.go]

    A shallow embedding of the adapter: the [Warp2] struct, its constructor,
    the feature discovery, the base charger contract, the metering reads and
    the phase switch guard, together with the properties the specification
    states about them.

    The adapter talks to the device through collaborators that live outside
    the file (the MQTT provider, [encoding/json], the [warp] type package).
    They are gathered in the class [Externals]; every definition below is
    parametric in it, and the theorems hold for every instance. *)

From Stdlib Require Import ZArith List String Ascii Bool Lia.
From Stdlib Require Import DecimalString DecimalZ.
From Stdlib Require Import Floats.SpecFloat.
Import ListNotations.

Local Open Scope string_scope.
Local Open Scope list_scope.
Local Open Scope Z_scope.

(** ** Go values *)

(** A Go [error] value is represented by its message. *)
Definition error := string.

(** [time.Duration]: a signed count of nanoseconds. *)
Definition Duration := Z.

Definition int64_min : Z := - 2 ^ 63.
Definition int64_max : Z := 2 ^ 63 - 1.
Definition in_int64 (z : Z) : bool := (int64_min <=? z) && (z <=? int64_max).

(** [float64]: IEEE 754 binary64, with the operations of [SpecFloat] at
    precision 53 and maximal exponent 1024 (round to nearest, ties to even). *)
Definition float64 := spec_float.
Definition f64_prec : Z := 53.
Definition f64_emax : Z := 1024.

Definition f64_mul : float64 -> float64 -> float64 := SFmul f64_prec f64_emax.
Definition f64_div : float64 -> float64 -> float64 := SFdiv f64_prec f64_emax.

(** [float64(n)] for an integer [n]: the nearest binary64. *)
Definition float64_of_int (n : Z) : float64 :=
  binary_normalize f64_prec f64_emax n 0 false.

(** The constant [1e3] at type [float64]. *)
Definition f64_1e3 : float64 := float64_of_int 1000.

(** The integer part of a finite float, the fraction discarded (rounding
    towards zero); [None] for infinities and NaN. *)
Definition float64_trunc (f : float64) : option Z :=
  match f with
  | S754_zero _ => Some 0
  | S754_finite s m e =>
      let mag := if 0 <=? e then Z.shiftl (Zpos m) e else Z.shiftr (Zpos m) (- e) in
      Some (cond_Zopp s mag)
  | S754_infinity _ | S754_nan => None
  end.

(** [fmt.Sprintf("%d", n)] *)
Definition fmt_d (n : Z) : string := NilZero.string_of_int (Z.to_int n).

(** [fmt.Errorf("invalid status: %d", code)] *)
Definition invalid_status (code : Z) : error :=
  ("invalid status: " ++ fmt_d code)%string.

(** [slices.Contains] on a possibly nil slice of strings. *)
Definition slices_Contains (s : option (list string)) (v : string) : bool :=
  match s with
  | None => false
  | Some l => existsb (String.eqb v) l
  end.

(** [len] of a possibly nil slice. *)
Definition len {A} (s : option (list A)) : Z :=
  match s with
  | None => 0
  | Some l => Z.of_nat (List.length l)
  end.

(** Indexing [s[i]]; [None] stands for the run-time panic of an index out of
    range. *)
Definition index {A} (s : option (list A)) (i : nat) : option A :=
  match s with
  | None => None
  | Some l => nth_error l i
  end.

(** ** The message bus

    Every interaction with the MQTT provider is a [request]; the device and
    the broker answer through the oracle [bus] of [Externals], which sees the
    requests made so far. The adapter's effects are the requests it appends
    to this history. *)

Section Bus.
(** [mqtt.Config], handed unread to the client registry. *)
Context {mqtt_Config : Type}.

Inductive request :=
| Connect (conf : mqtt_Config)
    (** [mqtt.RegisteredClientOrDefault(log, conf)] *)
| Subscribe (topic : string) (timeout : Duration)
    (** [provider.NewMqtt(log, client, topic, timeout).StringGetter()] *)
| NewIntSetter (topic payload param : string)
    (** [provider.NewMqtt(..., topic, 0).WithPayload(payload).IntSetter(param)] *)
| Receive (topic : string)
    (** a call of a string getter: the latest payload of [topic], or the
        error of the bounded read *)
| Publish (topic : string) (value : Z)
    (** a call of an int setter: the templated payload is published *).

Definition history := list request.

(** What a request answers: the pair a Go call returns. The string is
    meaningful for [Receive] only. *)
Definition reply : Type := string * option error.

(** Computations that extend the history. *)
Definition M (A : Type) : Type := history -> A * history.

Definition ret {A} (a : A) : M A := fun h => (a, h).

Definition bind {A B} (c : M A) (k : A -> M B) : M B :=
  fun h => let (a, h') := c h in k a h'.
End Bus.

Arguments request : clear implicits.
Arguments history : clear implicits.
Arguments M : clear implicits.

Declare Scope go_scope.
Delimit Scope go_scope with go.
Notation "x <- c ;; k" := (bind c (fun x => k))
  (at level 100, c at next level, right associativity) : go_scope.
Notation "' p <- c ;; k" := (bind c (fun x => let p := x in k))
  (at level 100, p pattern, c at next level, right associativity) : go_scope.
Local Open Scope go_scope.

(** ** The [warp] type package *)

(** Modelled from the spec: [api.ChargeStatus], declared in the [api]
    package; the charge states the adapter produces are Not-connected (A),
    Connected (B) and Charging (C), and [StatusNone] is the value returned
    along with an error. *)
Inductive ChargeStatus := StatusNone | StatusA | StatusB | StatusC.

(** Modelled from the spec: [warp.EvseExternalCurrent], the payload of the
    applied-current topic, a JSON object with a current field in mA. *)
Record EvseExternalCurrent := { Current : Z }.

(** Modelled from the spec: [warp.EvseState], the payload of the charge
    state topic, a JSON object with a numeric state code. *)
Record EvseState := { Iec61851State : Z }.

(** Modelled from the spec: [warp.MeterValues], power (W) and cumulative
    energy (Wh). *)
Record MeterValues := { Power : float64; EnergyAbs : float64 }.

(** Modelled from the spec: [warp.ChargeTrackerCurrentCharge], the charge
    session record with its nested tag id. *)
Record AuthorizationInfo := { TagId : string }.
Record ChargeTrackerCurrentCharge := { authorizationInfo : AuthorizationInfo }.

(** Modelled from the spec: [warp.ExternalControl], the control mode enum of
    the energy manager: an integer code, 0 for available, 1 for actively
    controlling, further modes numbered upwards, with a [String] method.
    The adapter compares the code with the constants 0 and 1 only. *)
Definition ExternalControl := Z.

(** Modelled from the spec: [warp.EmState], the payload of the energy
    manager state topic, a JSON object with a control mode field. *)
Record EmState := { externalControl : ExternalControl }.

(** The zero values of the decoded types ([var res T]). *)
Class Zero (T : Type) := zero : T.
#[export] Instance Zero_EvseExternalCurrent : Zero EvseExternalCurrent := {| Current := 0 |}.
#[export] Instance Zero_EvseState : Zero EvseState := {| Iec61851State := 0 |}.
#[export] Instance Zero_MeterValues : Zero MeterValues :=
  {| Power := S754_zero false; EnergyAbs := S754_zero false |}.
#[export] Instance Zero_ChargeTrackerCurrentCharge : Zero ChargeTrackerCurrentCharge :=
  {| authorizationInfo := {| TagId := "" |} |}.
#[export] Instance Zero_EmState : Zero EmState := {| externalControl := 0 |}.
#[export] Instance Zero_slice {A} : Zero (option (list A)) := None.

(** [json.Unmarshal([]byte(data), &v)]: the decoder receives the current
    value of [v] and returns the value it leaves there together with its
    error. On a type mismatch [encoding/json] keeps decoding and reports the
    first such error at the end, so that [v] may be changed although an error
    is returned. *)
Class Unmarshal (T : Type) := json_Unmarshal : string -> T -> T * option error.

(** ** The adapter *)

(** The configuration struct [cc] of [NewWarp2FromConfig]. *)
Record cc {mqtt_Config : Type} := {
  Config : mqtt_Config;
  Topic : string;
  EnergyManager : string;
  Timeout : Duration
}.
Arguments cc : clear implicits.

(** The collaborators of the adapter. *)
Class Externals (mqtt_Config Other : Type) := {
  (** the broker and the device behind it *)
  bus : history mqtt_Config -> request mqtt_Config -> reply;
  (** [encoding/json], at each target type the adapter decodes into *)
  Unmarshal_strings :: Unmarshal (option (list string));
  Unmarshal_floats :: Unmarshal (option (list float64));
  Unmarshal_EvseExternalCurrent :: Unmarshal EvseExternalCurrent;
  Unmarshal_EvseState :: Unmarshal EvseState;
  Unmarshal_MeterValues :: Unmarshal MeterValues;
  Unmarshal_ChargeTrackerCurrentCharge :: Unmarshal ChargeTrackerCurrentCharge;
  Unmarshal_EmState :: Unmarshal EmState;
  (** the [String] method of [warp.ExternalControl] *)
  ExternalControl_String : ExternalControl -> string;
  (** [int64(f)] where the integer part of [f] is no [int64] or [f] is not
      finite: the conversion succeeds with an implementation-dependent value *)
  int64_unrepresentable : float64 -> Z;
  (** [util.DecodeOther(other, &cc)] and the zero [mqtt.Config] *)
  DecodeOther : Other -> cc mqtt_Config -> cc mqtt_Config * option error;
  mqtt_Config_zero : mqtt_Config;
  (** the constants of the [warp] package *)
  warp_RootTopic : string;
  warp_Timeout : Duration;
  warp_FeatureMeter : string;
  warp_FeatureMeterPhases : string;
  warp_FeatureNfc : string
}.

(** The double quote character, for the payload templates. *)
Definition dquote : string := String (ascii_of_nat 34) EmptyString.

Definition maxcurrent_payload : string :=
  ("{ " ++ dquote ++ "current" ++ dquote ++ ": ${maxcurrent} }")%string.
Definition phases_payload : string :=
  ("{ " ++ dquote ++ "phases_wanted" ++ dquote ++ ": ${phases} }")%string.

Section Adapter.
Context {mqtt_Config Other : Type} `{Ext : Externals mqtt_Config Other}.

Abbreviation M := (M mqtt_Config).
Abbreviation request := (request mqtt_Config).

(** One request to the provider. *)
Definition perform (r : request) : M reply :=
  fun h => (bus h r, h ++ [r]).

(** The function a string getter of [topic] is: a bounded read of the
    latest payload. *)
Definition getter (topic : string) : M (string * option error) :=
  perform (Receive topic).

(** The function an int setter of [topic] is. *)
Definition setter (topic : string) (value : Z) : M (option error) :=
  r <- perform (Publish topic value) ;;
  ret (snd r).

(** Warp2 is the Warp charger v2 firmware implementation. The logger and
    the client handle carry no data of their own and are left out. *)
Record Warp2 := {
  features : option (list string);
  maxcurrentG : M (string * option error);
  statusG : M (string * option error);
  meterG : M (string * option error);
  meterDetailsG : M (string * option error);
  chargeG : M (string * option error);
  userconfigG : M (string * option error);
  emStateG : M (string * option error);
  maxcurrentS : Z -> M (option error);
  phasesS : Z -> M (option error);
  current : Z
}.

(** [wb.features = fs] *)
Definition set_features (wb : Warp2) (fs : option (list string)) : Warp2 :=
  {| features := fs;
     maxcurrentG := maxcurrentG wb; statusG := statusG wb; meterG := meterG wb;
     meterDetailsG := meterDetailsG wb; chargeG := chargeG wb;
     userconfigG := userconfigG wb; emStateG := emStateG wb;
     maxcurrentS := maxcurrentS wb; phasesS := phasesS wb;
     current := current wb |}.

(** [wb.current = curr] *)
Definition set_current (wb : Warp2) (curr : Z) : Warp2 :=
  {| features := features wb;
     maxcurrentG := maxcurrentG wb; statusG := statusG wb; meterG := meterG wb;
     meterDetailsG := meterDetailsG wb; chargeG := chargeG wb;
     userconfigG := userconfigG wb; emStateG := emStateG wb;
     maxcurrentS := maxcurrentS wb; phasesS := phasesS wb;
     current := curr |}.

(** A step of the constructor that may fail: on an error the constructor
    returns [nil, err]. *)
Definition step {A} (r : request) (k : M (option A * option error))
  : M (option A * option error) :=
  x <- perform r ;;
  match snd x with
  | Some err => ret (None, Some err)
  | None => k
  end.

(** NewWarp2 creates a new configurable charger. *)
Definition NewWarp2 (mqttconf : mqtt_Config) (topic emTopic : string)
    (timeout : Duration) : M (option Warp2 * option error) :=
  step (Connect mqttconf) (
  (* timeout handler *)
  step (Subscribe (topic ++ "/evse/low_level_state") timeout) (
  step (Subscribe (topic ++ "/evse/external_current") 0) (
  step (Subscribe (topic ++ "/evse/state") 0) (
  step (Subscribe (topic ++ "/meter/values") 0) (
  step (Subscribe (topic ++ "/meter/all_values") 0) (
  step (Subscribe (topic ++ "/charge_tracker/current_charge") 0) (
  step (Subscribe (topic ++ "/users/config") 0) (
  step (NewIntSetter (topic ++ "/evse/external_current_update")
          maxcurrent_payload "maxcurrent") (
  step (Subscribe (emTopic ++ "/energy_manager/state") 0) (
  step (NewIntSetter (emTopic ++ "/energy_manager/external_control_update")
          phases_payload "phases") (
  ret (Some {|
    features := None;
    maxcurrentG := getter (topic ++ "/evse/external_current");
    statusG := getter (topic ++ "/evse/state");
    meterG := getter (topic ++ "/meter/values");
    meterDetailsG := getter (topic ++ "/meter/all_values");
    chargeG := getter (topic ++ "/charge_tracker/current_charge");
    userconfigG := getter (topic ++ "/users/config");
    emStateG := getter (emTopic ++ "/energy_manager/state");
    maxcurrentS := setter (topic ++ "/evse/external_current_update");
    phasesS := setter (emTopic ++ "/energy_manager/external_control_update");
    current := 6000 (* mA *)
  |}, None)))))))))))).

Definition hasFeature (root feature : string) (timeout : Duration) (wb : Warp2)
  : M (bool * Warp2) :=
  match features wb with
  | Some _ => ret (slices_Contains (features wb) feature, wb)
  | None =>
      let topic := (root ++ "/info/features")%string in
      dataG <- perform (Subscribe topic timeout) ;;
      match snd dataG with
      | Some _ => ret (false, wb)
      | None =>
          '(data, err) <- getter topic ;;
          match err with
          | Some _ => ret (false, wb)
          | None =>
              let '(fs, err) := json_Unmarshal data (features wb) in
              let wb := set_features wb fs in
              match err with
              | Some _ => ret (false, wb)
              | None => ret (slices_Contains (features wb) feature, wb)
              end
          end
      end
  end.

(** Enable implements the api.Charger interface. *)
Definition Enable (enable : bool) (wb : Warp2) : M (option error) :=
  let current := if enable then current wb else 0 in
  maxcurrentS wb current.

(** Enabled implements the api.Charger interface. *)
Definition Enabled (wb : Warp2) : M (bool * option error) :=
  let res : EvseExternalCurrent := zero in
  '(s, err) <- maxcurrentG wb ;;
  let '(res, err) :=
    match err with
    | None => json_Unmarshal s res
    | Some _ => (res, err)
    end in
  ret (6000 <=? Current res, err).

(** Status implements the api.Charger interface. *)
Definition Status (wb : Warp2) : M (ChargeStatus * option error) :=
  let res := StatusNone in
  '(s, err) <- statusG wb ;;
  match err with
  | Some _ => ret (res, err)
  | None =>
      let '(status, err) := json_Unmarshal s (zero : EvseState) in
      match err with
      | Some _ => ret (res, err)
      | None =>
          match Iec61851State status with
          | 0 => ret (StatusA, None)
          | 1 => ret (StatusB, None)
          | 2 => ret (StatusC, None)
          | _ => ret (res, Some (invalid_status (Iec61851State status)))
          end
      end
  end.

(** [int64(f)]: the fraction is discarded. *)
Definition int64_of_float64 (f : float64) : Z :=
  match float64_trunc f with
  | Some z => if in_int64 z then z else int64_unrepresentable f
  | None => int64_unrepresentable f
  end.

(** MaxCurrentMillis implements the api.ChargerEx interface. *)
Definition MaxCurrentMillis (current : float64) (wb : Warp2)
  : M (option error * Warp2) :=
  let curr := int64_of_float64 (f64_mul current f64_1e3) in
  err <- maxcurrentS wb curr ;;
  match err with
  | None => ret (err, set_current wb curr)
  | Some _ => ret (err, wb)
  end.

(** MaxCurrent implements the api.Charger interface. *)
Definition MaxCurrent (current : Z) (wb : Warp2) : M (option error * Warp2) :=
  MaxCurrentMillis (float64_of_int current) wb.

(** CurrentPower implements the api.Meter interface. *)
Definition currentPower (wb : Warp2) : M (float64 * option error) :=
  let res : MeterValues := zero in
  '(s, err) <- meterG wb ;;
  let '(res, err) :=
    match err with
    | None => json_Unmarshal s res
    | Some _ => (res, err)
    end in
  ret (Power res, err).

(** TotalEnergy implements the api.MeterEnergy interface. *)
Definition totalEnergy (wb : Warp2) : M (float64 * option error) :=
  let res : MeterValues := zero in
  '(s, err) <- meterG wb ;;
  let '(res, err) :=
    match err with
    | None => json_Unmarshal s res
    | Some _ => (res, err)
    end in
  ret (EnergyAbs res, err).

Definition meterValues (wb : Warp2) : M (option (list float64) * option error) :=
  '(s, err) <- meterDetailsG wb ;;
  match err with
  | Some _ => ret (None, err)
  | None =>
      let '(res, err) := json_Unmarshal s (zero : option (list float64)) in
      match err with
      | Some _ => ret (None, err)
      | None =>
          if len res <=? 5
          then ret (None, Some "invalid length")
          else ret (res, None)
      end
  end.

Definition f64_0 : float64 := S754_zero false.

(** The three values a phase read returns with its error; [None] is the
    panic of an index out of range. *)
Definition phase_values : Type := option (float64 * float64 * float64 * option error).

(** [return res[i], res[j], res[k], nil] *)
Definition pick (res : option (list float64)) (i j k : nat) : phase_values :=
  match index res i, index res j, index res k with
  | Some a, Some b, Some c => Some (a, b, c, None)
  | _, _, _ => None
  end.

(** currents implements the api.MeterCurrrents interface. *)
Definition currents (wb : Warp2) : M phase_values :=
  '(res, err) <- meterValues wb ;;
  match err with
  | Some _ => ret (Some (f64_0, f64_0, f64_0, err))
  | None => ret (pick res 3 4 5)
  end.

(** voltages implements the api.MeterVoltages interface. *)
Definition voltages (wb : Warp2) : M phase_values :=
  '(res, err) <- meterValues wb ;;
  match err with
  | Some _ => ret (Some (f64_0, f64_0, f64_0, err))
  | None => ret (pick res 0 1 2)
  end.

Definition identify (wb : Warp2) : M (string * option error) :=
  let res : ChargeTrackerCurrentCharge := zero in
  '(s, err) <- chargeG wb ;;
  let '(res, err) :=
    match err with
    | None => json_Unmarshal s res
    | Some _ => (res, err)
    end in
  ret (TagId (authorizationInfo res), err).

Definition emState (wb : Warp2) : M (EmState * option error) :=
  let res : EmState := zero in
  '(s, err) <- emStateG wb ;;
  match err with
  | None => ret (json_Unmarshal s res)
  | Some _ => ret (res, err)
  end.

(** [fmt.Errorf("external control not available: %s", mode.String())] *)
Definition control_unavailable (mode : ExternalControl) : error :=
  ("external control not available: " ++ ExternalControl_String mode)%string.

Definition phases1p3p (phases : Z) (wb : Warp2) : M (option error) :=
  '(res, err) <- emState wb ;;
  match err with
  | Some _ => ret err
  | None =>
      if 0 <? externalControl res
      then ret (Some (control_unavailable (externalControl res)))
      else phasesS wb phases
  end.

(** Modelled from the spec: the charger object [decorateWarp2] builds (the
    generated decorator is not part of the sources): the base adapter and,
    for each optional contract, the function that implements it or nothing. *)
Record Charger := {
  base : Warp2;
  CurrentPower : option (Warp2 -> M (float64 * option error));
  TotalEnergy : option (Warp2 -> M (float64 * option error));
  Currents : option (Warp2 -> M phase_values);
  Voltages : option (Warp2 -> M phase_values);
  Identify : option (Warp2 -> M (string * option error));
  Phases1p3p : option (Z -> Warp2 -> M (option error))
}.

Definition decorateWarp2 := Build_Charger.

(** NewWarpFromConfig creates a new configurable charger. *)
Definition NewWarp2FromConfig (other : Other) : M (option Charger * option error) :=
  let cc := {| Config := mqtt_Config_zero; Topic := warp_RootTopic;
               EnergyManager := ""; Timeout := warp_Timeout |} in
  let '(cc, err) := DecodeOther other cc in
  match err with
  | Some _ => ret (None, err)
  | None =>
      '(wb, err) <- NewWarp2 (Config cc) (Topic cc) (EnergyManager cc) (Timeout cc) ;;
      match wb, err with
      | Some wb, None =>
          '(meter, wb) <- hasFeature (Topic cc) warp_FeatureMeter (Timeout cc) wb ;;
          let currentPower := if meter : bool then Some currentPower else None in
          let totalEnergy := if meter then Some totalEnergy else None in
          '(phases, wb) <- hasFeature (Topic cc) warp_FeatureMeterPhases (Timeout cc) wb ;;
          let currents := if phases : bool then Some currents else None in
          let voltages := if phases then Some voltages else None in
          '(nfc, wb) <- hasFeature (Topic cc) warp_FeatureNfc (Timeout cc) wb ;;
          let identity := if nfc : bool then Some identify else None in
          phases <-
            (if String.eqb (EnergyManager cc) ""
             then ret None
             else
               '(res, err) <- emState wb ;;
               match err with
               | None =>
                   if externalControl res =? 1 then ret None else ret (Some phases1p3p)
               | Some _ => ret None
               end) ;;
          ret (Some (decorateWarp2 wb currentPower totalEnergy currents voltages
                       identity phases), err)
      | _, _ => ret (None, err)
      end
  end.
End Adapter.

(** ** Sequences of calls on the base contract *)

Inductive call :=
| CallEnable (enable : bool)
| CallEnabled
| CallStatus
| CallMaxCurrent (current : Z)
| CallMaxCurrentMillis (current : float64).

Section Calls.
Context {mqtt_Config Other : Type} `{Ext : Externals mqtt_Config Other}.

(** One call; its error result and the adapter it leaves. *)
Definition exec (c : call) (wb : Warp2) : M mqtt_Config (option error * Warp2) :=
  match c with
  | CallEnable enable => err <- Enable enable wb ;; ret (err, wb)
  | CallEnabled => r <- Enabled wb ;; ret (snd r, wb)
  | CallStatus => r <- Status wb ;; ret (snd r, wb)
  | CallMaxCurrent current => MaxCurrent current wb
  | CallMaxCurrentMillis current => MaxCurrentMillis current wb
  end.

Fixpoint run (cs : list call) (wb : Warp2)
  : M mqtt_Config (list (option error) * Warp2) :=
  match cs with
  | [] => ret ([], wb)
  | c :: cs =>
      '(err, wb) <- exec c wb ;;
      '(errs, wb) <- run cs wb ;;
      ret (err :: errs, wb)
  end.

(** The milliamp value a call asks the device to apply, for the two
    setters of the maximal current. *)
Definition requested (c : call) : option Z :=
  match c with
  | CallMaxCurrent current =>
      Some (int64_of_float64 (f64_mul (float64_of_int current) f64_1e3))
  | CallMaxCurrentMillis current =>
      Some (int64_of_float64 (f64_mul current f64_1e3))
  | _ => None
  end.

(** The current last applied with success by a setter of the maximal
    current along [cs], whose error results are [errs]; [init] when there
    is none. *)
Fixpoint last_applied (init : Z) (cs : list call) (errs : list (option error)) : Z :=
  match cs, errs with
  | c :: cs, err :: errs =>
      match requested c, err with
      | Some curr, None => last_applied curr cs errs
      | _, _ => last_applied init cs errs
      end
  | _, _ => init
  end.

(** The same, zero writes not counted: the last nonzero current applied
    with success, in the words of the specification of [Enable]. *)
Fixpoint last_applied_nonzero (init : Z) (cs : list call) (errs : list (option error)) : Z :=
  match cs, errs with
  | c :: cs, err :: errs =>
      match requested c, err with
      | Some curr, None =>
          last_applied_nonzero (if curr =? 0 then init else curr) cs errs
      | _, _ => last_applied_nonzero init cs errs
      end
  | _, _ => init
  end.

(** No setter of the maximal current succeeded along [cs]. *)
Fixpoint none_applied (cs : list call) (errs : list (option error)) : bool :=
  match cs, errs with
  | c :: cs, err :: errs =>
      match requested c, err with
      | Some _, None => false
      | _, _ => none_applied cs errs
      end
  | _, _ => true
  end.

(** An adapter whose getters and setters are the ones [NewWarp2] binds to
    the topics under [topic] and [emTopic]. *)
Definition wired (topic emTopic : string) (wb : Warp2) : Prop :=
  wb = {|
    features := features wb;
    maxcurrentG := getter (topic ++ "/evse/external_current");
    statusG := getter (topic ++ "/evse/state");
    meterG := getter (topic ++ "/meter/values");
    meterDetailsG := getter (topic ++ "/meter/all_values");
    chargeG := getter (topic ++ "/charge_tracker/current_charge");
    userconfigG := getter (topic ++ "/users/config");
    emStateG := getter (emTopic ++ "/energy_manager/state");
    maxcurrentS := setter (topic ++ "/evse/external_current_update");
    phasesS := setter (emTopic ++ "/energy_manager/external_control_update");
    current := current wb
  |}.
End Calls.

(** ** Feature probes *)

Section Probes.
Context {mqtt_Config Other : Type} `{Ext : Externals mqtt_Config Other}.

(** Successive [hasFeature] calls, one for each of [queries]. *)
Fixpoint hasFeatures (root : string) (timeout : Duration) (queries : list string)
    (wb : Warp2) : M mqtt_Config (list bool * Warp2) :=
  match queries with
  | [] => ret ([], wb)
  | feature :: queries =>
      '(b, wb) <- hasFeature root feature timeout wb ;;
      '(bs, wb) <- hasFeatures root timeout queries wb ;;
      ret (b :: bs, wb)
  end.

(** A probe of the feature topic made after [h] fails and leaves the
    feature list nil: the subscription or the read fails, or the decoder
    fails without having stored anything. *)
Definition probe_fails (root : string) (timeout : Duration)
    (h : history mqtt_Config) : bool :=
  let topic := (root ++ "/info/features")%string in
  match snd (bus h (Subscribe topic timeout)) with
  | Some _ => true
  | None =>
      let '(data, err) := bus (h ++ [Subscribe topic timeout]) (Receive topic) in
      match err with
      | Some _ => true
      | None =>
          match json_Unmarshal data (None : option (list string)) with
          | (None, Some _) => true
          | _ => false
          end
      end
  end.

(** A probe of the feature topic made after [h] fails with a transport or
    parse error: the subscription fails, the read fails, or the decoder
    returns an error, whatever it has stored by then. *)
Definition probe_errors (root : string) (timeout : Duration)
    (h : history mqtt_Config) : bool :=
  let topic := (root ++ "/info/features")%string in
  match snd (bus h (Subscribe topic timeout)) with
  | Some _ => true
  | None =>
      let '(data, err) := bus (h ++ [Subscribe topic timeout]) (Receive topic) in
      match err with
      | Some _ => true
      | None =>
          match snd (json_Unmarshal data (None : option (list string))) with
          | Some _ => true
          | None => false
          end
      end
  end.

(** The history after a probe made after [h]. *)
Definition after_probe (root : string) (timeout : Duration)
    (h : history mqtt_Config) : history mqtt_Config :=
  let topic := (root ++ "/info/features")%string in
  match snd (bus h (Subscribe topic timeout)) with
  | Some _ => h ++ [Subscribe topic timeout]
  | None => h ++ [Subscribe topic timeout; Receive topic]
  end.

(** [n] probes in a row, the first made after [h], all fail. *)
Fixpoint probes_fail (n : nat) (root : string) (timeout : Duration)
    (h : history mqtt_Config) : bool :=
  match n with
  | O => true
  | S n =>
      probe_fails root timeout h
      && probes_fail n root timeout (after_probe root timeout h)
  end.

(** The optional contracts a charger exposes: power and energy metering,
    phase currents and voltages, identification, phase switching. *)
Definition exposed {A} (contract : option A) : bool :=
  match contract with Some _ => true | None => false end.

Definition capabilities (c : @Charger mqtt_Config)
  : bool * bool * bool * bool * bool * bool :=
  (exposed (CurrentPower c), exposed (TotalEnergy c), exposed (Currents c),
   exposed (Voltages c), exposed (Identify c), exposed (Phases1p3p c)).
End Probes.

(** ** All operations of the charger *)

(** The operations a constructed charger offers: the base contract and the
    optional contracts. *)
Inductive op :=
| OpCall (c : call)
| OpCurrentPower
| OpTotalEnergy
| OpCurrents
| OpVoltages
| OpIdentify
| OpPhases1p3p (phases : Z).

Section Operations.
Context {mqtt_Config Other : Type} `{Ext : Externals mqtt_Config Other}.

(** One operation; the adapter it leaves (the results are dropped). *)
Definition exec_op (o : op) (wb : Warp2) : M mqtt_Config Warp2 :=
  match o with
  | OpCall c => r <- exec c wb ;; ret (snd r)
  | OpCurrentPower => _ <- currentPower wb ;; ret wb
  | OpTotalEnergy => _ <- totalEnergy wb ;; ret wb
  | OpCurrents => _ <- currents wb ;; ret wb
  | OpVoltages => _ <- voltages wb ;; ret wb
  | OpIdentify => _ <- identify wb ;; ret wb
  | OpPhases1p3p phases => _ <- phases1p3p phases wb ;; ret wb
  end.

Fixpoint run_ops (os : list op) (wb : Warp2) : M mqtt_Config Warp2 :=
  match os with
  | [] => ret wb
  | o :: os => wb <- exec_op o wb ;; run_ops os wb
  end.

(** The requests an operation of an adapter bound to [topic] and [emTopic]
    may make: a read of one of six state topics, a write to one of the two
    update topics. *)
Definition operation_request (topic emTopic : string) (r : request mqtt_Config) : bool :=
  match r with
  | Receive t =>
      existsb (String.eqb t)
        [ (topic ++ "/evse/external_current")%string;
          (topic ++ "/evse/state")%string;
          (topic ++ "/meter/values")%string;
          (topic ++ "/meter/all_values")%string;
          (topic ++ "/charge_tracker/current_charge")%string;
          (emTopic ++ "/energy_manager/state")%string ]
  | Publish t _ =>
      existsb (String.eqb t)
        [ (topic ++ "/evse/external_current_update")%string;
          (emTopic ++ "/energy_manager/external_control_update")%string ]
  | _ => false
  end.

(** The requests of [NewWarp2], in the order the constructor makes them. *)
Definition NewWarp2_requests (mqttconf : mqtt_Config) (topic emTopic : string)
    (timeout : Duration) : list (request mqtt_Config) :=
  [ Connect mqttconf;
    Subscribe (topic ++ "/evse/low_level_state") timeout;
    Subscribe (topic ++ "/evse/external_current") 0;
    Subscribe (topic ++ "/evse/state") 0;
    Subscribe (topic ++ "/meter/values") 0;
    Subscribe (topic ++ "/meter/all_values") 0;
    Subscribe (topic ++ "/charge_tracker/current_charge") 0;
    Subscribe (topic ++ "/users/config") 0;
    NewIntSetter (topic ++ "/evse/external_current_update") maxcurrent_payload "maxcurrent";
    Subscribe (emTopic ++ "/energy_manager/state") 0;
    NewIntSetter (emTopic ++ "/energy_manager/external_control_update")
      phases_payload "phases" ].

(** A request that reads a payload or writes to the device. *)
Definition device_traffic (r : request mqtt_Config) : bool :=
  match r with
  | Receive _ | Publish _ _ => true
  | _ => false
  end.
End Operations.

(** [int64(float64(n) * 1e3)] is [1000 * n], for the whole amps [n],
    [n + 1], ..., [n + k - 1]. *)
Definition whole_amps_exact (n : Z) : bool :=
  match float64_trunc (f64_mul (float64_of_int n) f64_1e3) with
  | Some z => (z =? 1000 * n) && in_int64 z
  | None => false
  end.

Fixpoint whole_amps_exact_from (k : nat) (n : Z) : bool :=
  match k with
  | O => true
  | S k => whole_amps_exact n && whole_amps_exact_from k (n + 1)
  end.

(** ** Observations on a history *)

Section Observations.
Context {mqtt_Config : Type}.

(** The values published to [topic], oldest first. *)
Fixpoint published (topic : string) (h : history mqtt_Config) : list Z :=
  match h with
  | [] => []
  | Publish t v :: h => if String.eqb t topic then v :: published topic h else published topic h
  | _ :: h => published topic h
  end.

(** How many times [topic] has been read. *)
Fixpoint received (topic : string) (h : history mqtt_Config) : nat :=
  match h with
  | [] => O
  | Receive t :: h => if String.eqb t topic then S (received topic h) else received topic h
  | _ :: h => received topic h
  end.
End Observations.

(** ** A simulated device

    A concrete instance of [Externals], for running the adapter: the bus
    answers from a script, the decoders from tables of the payloads the
    scenarios below use. *)

Fixpoint assoc {A} (k : string) (tbl : list (string * A)) : option A :=
  match tbl with
  | [] => None
  | (k', a) :: tbl => if String.eqb k k' then Some a else assoc k tbl
  end.

(** What the simulated device answers: for each topic the replies to its
    successive reads and the errors of its successive writes. A read past the
    script times out, a write past the script succeeds, and subscriptions
    and the connection succeed. *)
Record script := {
  reads : list (string * list reply);
  writes : list (string * list (option error))
}.

Definition sim_bus (s : script) (h : history unit) (r : request unit) : reply :=
  match r with
  | Receive t =>
      match assoc t (reads s) with
      | Some rs => nth (received t h) rs ("", Some "timeout")
      | None => ("", Some "timeout")
      end
  | Publish t _ =>
      match assoc t (writes s) with
      | Some es => ("", nth (List.length (published t h)) es None)
      | None => ("", None)
      end
  | _ => ("", None)
  end.

(** A decoder given by a table; a payload outside the table is a syntax
    error, which leaves the target as it is. *)
Definition table {T} (tbl : list (string * (T * option error))) : Unmarshal T :=
  fun data v =>
    match assoc data tbl with
    | Some r => r
    | None => (v, Some "invalid character looking for beginning of value")
    end.

Definition json_field (name value : string) : string :=
  ("{" ++ dquote ++ name ++ dquote ++ ":" ++ value ++ "}")%string.
Definition json_string (s : string) : string := (dquote ++ s ++ dquote)%string.
Definition json_array (items : list string) : string :=
  ("[" ++ String.concat "," items ++ "]")%string.

Definition sim_strings : Unmarshal (option (list string)) :=
  table
    [ (json_array [json_string "meter"; json_string "meter_phases"; json_string "nfc"],
       (Some ["meter"; "meter_phases"; "nfc"], None));
      (json_array [json_string "meter_phases"],
       (Some ["meter_phases"], None));
      ("[]", (Some [], None));
      ("null", (None, None));
      (* the number is skipped, the rest is decoded, the mismatch reported *)
      (json_array [json_string "meter_phases"; "1"],
       (Some ["meter_phases"; ""],
        Some "json: cannot unmarshal number into Go value of type string")) ].

Definition sim_floats : Unmarshal (option (list float64)) :=
  table
    [ ("[230,231,229,16,15,14]",
       (Some (map float64_of_int [230; 231; 229; 16; 15; 14]), None));
      ("[230,231,229,16,15,14,50]",
       (Some (map float64_of_int [230; 231; 229; 16; 15; 14; 50]), None));
      ("[230,231,229,16,15]",
       (Some (map float64_of_int [230; 231; 229; 16; 15]), None));
      ("[]", (Some [], None)) ].

Definition sim_EvseExternalCurrent : Unmarshal EvseExternalCurrent :=
  table
    [ (json_field "current" "0", ({| Current := 0 |}, None));
      (json_field "current" "5999", ({| Current := 5999 |}, None));
      (json_field "current" "6000", ({| Current := 6000 |}, None));
      (json_field "current" "16000", ({| Current := 16000 |}, None)) ].

Definition sim_EvseState : Unmarshal EvseState :=
  table
    [ (json_field "iec61851_state" "0", ({| Iec61851State := 0 |}, None));
      (json_field "iec61851_state" "1", ({| Iec61851State := 1 |}, None));
      (json_field "iec61851_state" "2", ({| Iec61851State := 2 |}, None));
      (json_field "iec61851_state" "4", ({| Iec61851State := 4 |}, None)) ].

Definition sim_EmState : Unmarshal EmState :=
  table
    [ (json_field "external_control" "0", ({| externalControl := 0 |}, None));
      (json_field "external_control" "1", ({| externalControl := 1 |}, None));
      (json_field "external_control" "3", ({| externalControl := 3 |}, None)) ].

(** The simulated collaborators. The configuration handed to
    [NewWarp2FromConfig] is the decoded one; a control mode prints as its
    number; an unrepresentable float converts to the least [int64]. *)
Definition sim (s : script) : Externals unit (cc unit) := {|
  bus := sim_bus s;
  Unmarshal_strings := sim_strings;
  Unmarshal_floats := sim_floats;
  Unmarshal_EvseExternalCurrent := sim_EvseExternalCurrent;
  Unmarshal_EvseState := sim_EvseState;
  Unmarshal_MeterValues := table [];
  Unmarshal_ChargeTrackerCurrentCharge := table [];
  Unmarshal_EmState := sim_EmState;
  ExternalControl_String := fun m => ("ExternalControl(" ++ fmt_d m ++ ")")%string;
  int64_unrepresentable := fun _ => int64_min;
  DecodeOther := fun other _ => (other, None);
  mqtt_Config_zero := tt;
  warp_RootTopic := "warp";
  warp_Timeout := 30 * 1000000000;
  warp_FeatureMeter := "meter";
  warp_FeatureMeterPhases := "meter_phases";
  warp_FeatureNfc := "nfc"
|}.

(** The adapter [NewWarp2] builds for the root topic [warp] and the energy
    manager topic [wem], with a given feature list and cached current. *)
Definition sim_wb (s : script) (fs : option (list string)) (curr : Z)
  : @Warp2 unit := {|
  features := fs;
  maxcurrentG := @getter _ _ (sim s) "warp/evse/external_current";
  statusG := @getter _ _ (sim s) "warp/evse/state";
  meterG := @getter _ _ (sim s) "warp/meter/values";
  meterDetailsG := @getter _ _ (sim s) "warp/meter/all_values";
  chargeG := @getter _ _ (sim s) "warp/charge_tracker/current_charge";
  userconfigG := @getter _ _ (sim s) "warp/users/config";
  emStateG := @getter _ _ (sim s) "wem/energy_manager/state";
  maxcurrentS := @setter _ _ (sim s) "warp/evse/external_current_update";
  phasesS := @setter _ _ (sim s) "wem/energy_manager/external_control_update";
  current := curr
|}.

(** Scenarios. A car charging at 16 A on a device with all features and an
    energy manager that leaves the phases to the caller. *)
Definition sim_charging : script := {|
  reads :=
    [ ("warp/info/features",
       [ (json_array [json_string "meter"; json_string "meter_phases"; json_string "nfc"],
          None) ]);
      ("warp/evse/state", [ (json_field "iec61851_state" "2", None) ]);
      ("warp/evse/external_current", [ (json_field "current" "16000", None) ]);
      ("warp/meter/all_values", [ ("[230,231,229,16,15,14]", None) ]);
      ("wem/energy_manager/state", [ (json_field "external_control" "0", None) ]) ];
  writes := []
|}.

(** A device that does not answer: every read times out. *)
Definition sim_offline : script := {| reads := []; writes := [] |}.

(** A device that reports the state code 4. *)
Definition sim_state_4 : script := {|
  reads := [ ("warp/evse/state", [ (json_field "iec61851_state" "4", None) ]) ];
  writes := []
|}.

(** A device whose extended metering has five values only. *)
Definition sim_short_meter : script := {|
  reads := [ ("warp/meter/all_values", [ ("[230,231,229,16,15]", None) ]) ];
  writes := []
|}.

(** A device whose feature topic times out once and answers afterwards. *)
Definition sim_late_features : script := {|
  reads :=
    [ ("warp/info/features",
       [ ("", Some "timeout"); (json_array [json_string "meter_phases"], None) ]) ];
  writes := []
|}.

(** A device whose feature list holds a number after a capability token. *)
Definition sim_odd_features : script := {|
  reads :=
    [ ("warp/info/features", [ (json_array [json_string "meter_phases"; "1"], None) ]) ];
  writes := []
|}.

(** An energy manager that reports the control mode [mode]. *)
Definition sim_mode (mode : string) : script := {|
  reads := [ ("wem/energy_manager/state", [ (json_field "external_control" mode, None) ]) ];
  writes := []
|}.

(** A broker that refuses the second write of the current. *)
Definition sim_refused_write : script := {|
  reads := [];
  writes := [ ("warp/evse/external_current_update", [ None; Some "publish failed" ]) ]
|}.

(** The configuration of the scenarios: root topic [warp], energy manager
    topic [wem], a timeout of 30 s. *)
Definition sim_cc : cc unit :=
  {| Config := tt; Topic := "warp"; EnergyManager := "wem"; Timeout := 30 * 1000000000 |}.

(** The simulated collaborators with another broker, or with another
    decoder of the configuration. *)
Definition sim_with (s : script)
    (broker : history unit -> request unit -> reply)
    (decode : cc unit -> cc unit -> cc unit * option error)
  : Externals unit (cc unit) := {|
  bus := broker;
  Unmarshal_strings := sim_strings;
  Unmarshal_floats := sim_floats;
  Unmarshal_EvseExternalCurrent := sim_EvseExternalCurrent;
  Unmarshal_EvseState := sim_EvseState;
  Unmarshal_MeterValues := table [];
  Unmarshal_ChargeTrackerCurrentCharge := table [];
  Unmarshal_EmState := sim_EmState;
  ExternalControl_String := fun m => ("ExternalControl(" ++ fmt_d m ++ ")")%string;
  int64_unrepresentable := fun _ => int64_min;
  DecodeOther := decode;
  mqtt_Config_zero := tt;
  warp_RootTopic := "warp";
  warp_Timeout := 30 * 1000000000;
  warp_FeatureMeter := "meter";
  warp_FeatureMeterPhases := "meter_phases";
  warp_FeatureNfc := "nfc"
|}.

(** A broker that refuses the subscription to the state topic. *)
Definition sim_bus_no_state (h : history unit) (r : request unit) : reply :=
  match r with
  | Subscribe "warp/evse/state" _ => ("", Some "subscribe failed")
  | _ => sim_bus sim_offline h r
  end.

(** A configuration that does not decode. *)
Definition sim_decode_fails (other conf : cc unit) : cc unit * option error :=
  (conf, Some "cannot decode configuration").

(** An energy manager that reports the control mode 3 to a device with all
    features. *)
Definition sim_switching : script := {|
  reads :=
    [ ("warp/info/features",
       [ (json_array [json_string "meter"; json_string "meter_phases"; json_string "nfc"],
          None) ]);
      ("wem/energy_manager/state",
       [ (json_field "external_control" "3", None);
         (json_field "external_control" "3", None) ]) ];
  writes := []
|}.

(** The adapter [NewWarp2] builds for [warp] and [wem] over any
    collaborators. *)
Definition sim_wb_with (E : Externals unit (cc unit)) (fs : option (list string))
    (curr : Z) : @Warp2 unit := {|
  features := fs;
  maxcurrentG := @getter _ _ E "warp/evse/external_current";
  statusG := @getter _ _ E "warp/evse/state";
  meterG := @getter _ _ E "warp/meter/values";
  meterDetailsG := @getter _ _ E "warp/meter/all_values";
  chargeG := @getter _ _ E "warp/charge_tracker/current_charge";
  userconfigG := @getter _ _ E "warp/users/config";
  emStateG := @getter _ _ E "wem/energy_manager/state";
  maxcurrentS := @setter _ _ E "warp/evse/external_current_update";
  phasesS := @setter _ _ E "wem/energy_manager/external_control_update";
  current := curr
|}.

(** A device that answers every read with a payload that is no JSON. *)
Definition sim_garbage : Externals unit (cc unit) :=
  sim_with sim_offline (fun _ _ => ("garbage", None)) (fun other _ => (other, None)).

(** A broker that refuses the subscription to the state topic, and a
    configuration that does not decode. *)
Definition sim_no_state : Externals unit (cc unit) :=
  sim_with sim_offline sim_bus_no_state (fun other _ => (other, None)).

Definition sim_no_config : Externals unit (cc unit) :=
  sim_with sim_offline (sim_bus sim_offline) sim_decode_fails.

(** A meter that reports 11 kW and 1234 Wh, then 11 kW and 1235 Wh. *)
Definition sim_meter_values : Unmarshal MeterValues :=
  table
    [ ("{11000,1234}",
       ({| Power := float64_of_int 11000; EnergyAbs := float64_of_int 1234 |}, None));
      ("{11000,1235}",
       ({| Power := float64_of_int 11000; EnergyAbs := float64_of_int 1235 |}, None)) ].

Definition sim_metering_script : script := {|
  reads := [ ("warp/meter/values", [ ("{11000,1234}", None); ("{11000,1235}", None) ]) ];
  writes := []
|}.

Definition sim_metering : Externals unit (cc unit) := {|
  bus := sim_bus sim_metering_script;
  Unmarshal_strings := sim_strings;
  Unmarshal_floats := sim_floats;
  Unmarshal_EvseExternalCurrent := sim_EvseExternalCurrent;
  Unmarshal_EvseState := sim_EvseState;
  Unmarshal_MeterValues := sim_meter_values;
  Unmarshal_ChargeTrackerCurrentCharge := table [];
  Unmarshal_EmState := sim_EmState;
  ExternalControl_String := fun m => ("ExternalControl(" ++ fmt_d m ++ ")")%string;
  int64_unrepresentable := fun _ => int64_min;
  DecodeOther := fun other _ => (other, None);
  mqtt_Config_zero := tt;
  warp_RootTopic := "warp";
  warp_Timeout := 30 * 1000000000;
  warp_FeatureMeter := "meter";
  warp_FeatureMeterPhases := "meter_phases";
  warp_FeatureNfc := "nfc"
|}.

(** The construction on the simulated device, from an empty history. *)
Definition sim_new (s : script) :=
  @NewWarp2 unit (cc unit) (sim s) tt "warp" "wem" (30 * 1000000000) [].

Definition sim_new_from_config (s : script) :=
  @NewWarp2FromConfig unit (cc unit) (sim s) sim_cc [].

(** The float 6.3: the binary64 nearest to 63/10. *)
Definition f64_6_3 : float64 := S754_finite false 7093169413108531 (-50).
(** The float 1.001. *)
Definition f64_1_001 : float64 := S754_finite false 4508103226997866 (-52).

(** * Properties *)

(** ** Formatting *)

Lemma fmt_d_inj (a b : Z) : fmt_d a = fmt_d b -> a = b.
Proof.
  unfold fmt_d. intros E.
  assert (N : forall z, Z.to_int z <> Decimal.Pos Decimal.Nil /\
                        Z.to_int z <> Decimal.Neg Decimal.Nil).
  { intros [|p|p]; cbn; split; try discriminate;
      intros Q; injection Q as Q; revert Q; apply DecimalPos.Unsigned.to_uint_nonnil. }
  apply DecimalZ.to_int_inj.
  assert (S : Some (Z.to_int a) = Some (Z.to_int b)).
  { rewrite <- (NilZero.isi (Z.to_int a)), <- (NilZero.isi (Z.to_int b)) by apply N.
    now rewrite E. }
  now injection S.
Qed.

Lemma append_inj_l (p s t : string) : (p ++ s = p ++ t)%string -> s = t.
Proof. induction p as [|c p IH]; cbn; [auto|]. intros E. injection E as E. auto. Qed.

(** The message of an invalid status tells the code. *)
Lemma invalid_status_inj (a b : Z) : invalid_status a = invalid_status b -> a = b.
Proof. unfold invalid_status. intros E. apply fmt_d_inj, (append_inj_l _ _ _ E). Qed.

(** ** Reads: charge state, enabled state, phase meter *)

Section Reads.
Context {mqtt_Config Other : Type} `{Ext : Externals mqtt_Config Other}.
Implicit Types (wb : @Warp2 mqtt_Config) (h : history mqtt_Config).

(** C2. When the state topic delivers a payload that decodes to the state
    code [code], [Status] returns Not-connected (A) for 0, Connected (B)
    for 1 and Charging (C) for 2, without an error; for every other code it
    returns no status but an error whose message determines the code. *)
Theorem Status_maps_state_codes wb h h' (s : string) (status : EvseState) :
  statusG wb h = ((s, None), h') ->
  json_Unmarshal s (zero : EvseState) = (status, None) ->
  let code := Iec61851State status in
  (code = 0 -> Status wb h = ((StatusA, None), h')) /\
  (code = 1 -> Status wb h = ((StatusB, None), h')) /\
  (code = 2 -> Status wb h = ((StatusC, None), h')) /\
  (code <> 0 -> code <> 1 -> code <> 2 ->
     Status wb h = ((StatusNone, Some (invalid_status code)), h') /\
     forall code', invalid_status code' = invalid_status code -> code' = code).
Proof.
  intros G D code. unfold Status, bind, ret. rewrite G, D. fold code.
  split; [|split; [|split]]; try (intros ->; reflexivity).
  intros N0 N1 N2. split.
  - destruct code as [|[p|p|]|p]; try reflexivity; try contradiction;
      destruct p; try reflexivity; contradiction.
  - intros code'. apply invalid_status_inj.
Qed.

(** The cache plays no part in [Enabled]. *)
Lemma Enabled_ignores_cache wb h (curr : Z) (fs : option (list string)) :
  Enabled (set_current (set_features wb fs) curr) h = Enabled wb h.
Proof. reflexivity. Qed.

(** C3. After any sequence of calls on the base contract, [Enabled]
    answers from the read of the applied-current topic alone: when the
    payload decodes to a current, the answer is true exactly when that
    current is at least 6000 mA, and the error of a failed read or of a
    failed decoding is returned to the caller. *)
Theorem Enabled_reports_hardware_current (cs : list call) wb0 h0 errs wb h
    (s : string) (err : option error) h' :
  run cs wb0 h0 = ((errs, wb), h) ->
  maxcurrentG wb h = ((s, err), h') ->
  (forall res, err = None ->
     json_Unmarshal s (zero : EvseExternalCurrent) = (res, None) ->
     exists on, Enabled wb h = ((on, None), h') /\
                (on = true <-> 6000 <= Current res)) /\
  (forall e, err = Some e ->
     Enabled wb h = ((false, Some e), h')) /\
  (forall res e, err = None ->
     json_Unmarshal s (zero : EvseExternalCurrent) = (res, Some e) ->
     snd (fst (Enabled wb h)) = Some e).
Proof.
  intros _ G. unfold Enabled, bind, ret. rewrite G. repeat split.
  - intros res -> D. rewrite D. eexists. split; [reflexivity|]. apply Z.leb_le.
  - intros e ->. reflexivity.
  - intros res e -> D. rewrite D. reflexivity.
Qed.

Lemma meterValues_decoded wb h h' (s : string) (res : option (list float64)) :
  meterDetailsG wb h = ((s, None), h') ->
  json_Unmarshal s (zero : option (list float64)) = (res, None) ->
  meterValues wb h =
    ((if len res <=? 5 then (None, Some "invalid length") else (res, None)), h').
Proof.
  intros G D. unfold meterValues, bind, ret. rewrite G, D.
  destruct (len res <=? 5); reflexivity.
Qed.

(** C4. When the extended metering payload decodes to a sequence of at
    most 5 floats, [currents] and [voltages] fail with the length error;
    when it decodes to exactly six floats, [voltages] returns the elements
    at positions 0, 1, 2 and [currents] those at positions 3, 4, 5, in
    order and without an error. *)
Theorem phase_reads_by_length wb h h' (s : string) (res : option (list float64)) :
  meterDetailsG wb h = ((s, None), h') ->
  json_Unmarshal s (zero : option (list float64)) = (res, None) ->
  (len res <= 5 ->
     currents wb h = (Some (f64_0, f64_0, f64_0, Some "invalid length"), h') /\
     voltages wb h = (Some (f64_0, f64_0, f64_0, Some "invalid length"), h')) /\
  (forall v0 v1 v2 v3 v4 v5, res = Some [v0; v1; v2; v3; v4; v5] ->
     voltages wb h = (Some (v0, v1, v2, None), h') /\
     currents wb h = (Some (v3, v4, v5, None), h')).
Proof.
  intros G D. pose proof (meterValues_decoded _ _ _ _ _ G D) as MV.
  split.
  - intros L. apply Z.leb_le in L. rewrite L in MV.
    unfold currents, voltages, bind, ret. rewrite MV. split; reflexivity.
  - intros v0 v1 v2 v3 v4 v5 ->. cbn in MV.
    unfold currents, voltages, bind, ret. rewrite MV. split; reflexivity.
Qed.

(** X5. The guard on the length keeps the indices in range: whatever the
    device delivers and the decoder makes of it, the phase reads never
    panic. *)
Lemma currents_voltages_no_panic wb h :
  fst (currents wb h) <> None /\ fst (voltages wb h) <> None.
Proof.
  unfold currents, voltages, meterValues, bind, ret.
  destruct (meterDetailsG wb h) as [[s [e|]] h']; cbn [fst snd]; [split; discriminate|].
  destruct (json_Unmarshal s zero) as [res [e|]]; cbn [fst snd]; [split; discriminate|].
  destruct (Z.leb_spec (len res) 5) as [L|L]; cbn [fst snd]; [split; discriminate|].
  destruct res as [l|]; cbn [len] in L; [|lia].
  do 6 (destruct l as [|? l]; [cbn [List.length] in L; lia|]).
  split; discriminate.
Qed.


End Reads.

(** ** Conversion of amps to milliamps *)

(** The integer part of a finite float [m * 2^e] of sign [s]: the magnitude
    is rounded down, so that the value is rounded towards zero. *)
Lemma float64_trunc_finite (s : bool) (m : positive) (e z : Z) :
  float64_trunc (S754_finite s m e) = Some z ->
  exists q, z = cond_Zopp s q /\ 0 <= q /\
    q * 2 ^ Z.max 0 (- e) <= Zpos m * 2 ^ Z.max 0 e < (q + 1) * 2 ^ Z.max 0 (- e).
Proof.
  cbn [float64_trunc]. intros E. injection E as <-.
  destruct (Z.leb_spec 0 e) as [P|N].
  - exists (Z.shiftl (Zpos m) e). rewrite Z.shiftl_mul_pow2 by assumption.
    rewrite (Z.max_l 0 (- e)), (Z.max_r 0 e) by lia. cbn [Z.pow]. split; [reflexivity|].
    assert (0 < 2 ^ e) by (apply Z.pow_pos_nonneg; lia). nia.
  - exists (Z.shiftr (Zpos m) (- e)). rewrite Z.shiftr_div_pow2 by lia.
    rewrite (Z.max_r 0 (- e)), (Z.max_l 0 e) by lia.
    assert (P : 0 < 2 ^ (- e)) by (apply Z.pow_pos_nonneg; lia).
    pose proof (Z.div_mod (Zpos m) (2 ^ (- e)) ltac:(lia)) as DM.
    pose proof (Z.mod_pos_bound (Zpos m) (2 ^ (- e)) P) as MB.
    split; [reflexivity|]. split; [apply Z.div_pos; lia|].
    cbn [Z.pow]. nia.
Qed.

(** ** Writes: the maximal current and its cache *)

Section Writes.
Context {mqtt_Config Other : Type} `{Ext : Externals mqtt_Config Other}.
Implicit Types (wb : @Warp2 mqtt_Config) (h : history mqtt_Config).

Lemma setter_eq (topic : string) (value : Z) h :
  setter topic value h = (snd (bus h (Publish topic value)), h ++ [Publish topic value]).
Proof. reflexivity. Qed.

Lemma wired_maxcurrentS topic emTopic wb :
  wired topic emTopic wb ->
  maxcurrentS wb = setter (topic ++ "/evse/external_current_update").
Proof. intros W. rewrite W. reflexivity. Qed.

Lemma wired_set_current topic emTopic wb (curr : Z) :
  wired topic emTopic wb -> wired topic emTopic (set_current wb curr).
Proof. intros W. unfold wired, set_current. rewrite W. reflexivity. Qed.

Lemma wired_set_features topic emTopic wb (fs : option (list string)) :
  wired topic emTopic wb -> wired topic emTopic (set_features wb fs).
Proof. intros W. unfold wired, set_features. rewrite W. reflexivity. Qed.

(** What [Enable] does on the bus: one write to the current update topic. *)
Lemma Enable_wired topic emTopic wb h (enable : bool) :
  wired topic emTopic wb ->
  let update := (topic ++ "/evse/external_current_update")%string in
  let curr := if enable then current wb else 0 in
  Enable enable wb h = (snd (bus h (Publish update curr)), h ++ [Publish update curr]).
Proof.
  intros W. unfold Enable. rewrite (wired_maxcurrentS _ _ _ W). apply setter_eq.
Qed.

Lemma MaxCurrentMillis_wired topic emTopic wb h (amps : float64) :
  wired topic emTopic wb ->
  let update := (topic ++ "/evse/external_current_update")%string in
  let curr := int64_of_float64 (f64_mul amps f64_1e3) in
  let err := snd (bus h (Publish update curr)) in
  MaxCurrentMillis amps wb h =
    ((err, match err with None => set_current wb curr | Some _ => wb end),
     h ++ [Publish update curr]).
Proof.
  intros W. unfold MaxCurrentMillis, bind. rewrite (wired_maxcurrentS _ _ _ W), setter_eq.
  cbv zeta. destruct (snd (bus h _)); reflexivity.
Qed.

(** C1. [MaxCurrentMillis(a)] converts to milliamps with the fraction of
    the float product [a * 1e3] discarded (6.3 A gives 6300 mA), and issues
    the write of that value; when the write succeeds the cached current is
    that value, and when it fails the adapter is left as it was; the
    [Enable(true)] that follows writes the cached current. *)
Theorem MaxCurrentMillis_caches_on_success (topic emTopic : string) wb h
    (amps : float64) (err : option error) wb' h' :
  wired topic emTopic wb ->
  MaxCurrentMillis amps wb h = ((err, wb'), h') ->
  let update := (topic ++ "/evse/external_current_update")%string in
  let curr := int64_of_float64 (f64_mul amps f64_1e3) in
  (forall z, float64_trunc (f64_mul amps f64_1e3) = Some z -> in_int64 z = true ->
     curr = z) /\
  int64_of_float64 (f64_mul f64_6_3 f64_1e3) = 6300 /\
  h' = h ++ [Publish update curr] /\
  err = snd (bus h (Publish update curr)) /\
  (err = None -> current wb' = curr) /\
  (err <> None -> wb' = wb) /\
  snd (Enable true wb' h') = h' ++ [Publish update (current wb')].
Proof.
  intros W R update curr.
  rewrite (MaxCurrentMillis_wired _ _ _ _ _ W) in R. fold update curr in R.
  injection R as <- <- <-.
  assert (W' : wired topic emTopic
                 match snd (bus h (Publish update curr)) with
                 | None => set_current wb curr
                 | Some _ => wb
                 end).
  { destruct (snd (bus h _)); [assumption | apply wired_set_current, W]. }
  split; [|split; [|split; [|split; [|split; [|split]]]]].
  - intros z T I. subst curr. unfold int64_of_float64. rewrite T, I. reflexivity.
  - reflexivity.
  - reflexivity.
  - reflexivity.
  - intros ->. reflexivity.
  - destruct (snd (bus h _)); [reflexivity | intros N; now contradiction N].
  - rewrite (Enable_wired _ _ _ _ _ W'). reflexivity.
Qed.
End Writes.

(** ** The cached current along a sequence of calls *)

Section Sequences.
Context {mqtt_Config Other : Type} `{Ext : Externals mqtt_Config Other}.
Implicit Types (wb : @Warp2 mqtt_Config) (h : history mqtt_Config).

(** A call changes the adapter only when it is a setter of the maximal
    current that succeeds; the cache then holds the value it asked for. *)
Lemma exec_wired topic emTopic (c : call) wb h (err : option error) wb' h' :
  wired topic emTopic wb ->
  exec c wb h = ((err, wb'), h') ->
  wb' = match requested c, err with
        | Some curr, None => set_current wb curr
        | _, _ => wb
        end.
Proof.
  intros W E. destruct c; cbn [exec requested] in *.
  - unfold bind, ret in E. destruct (Enable enable wb h). now injection E as <- <- <-.
  - unfold bind, ret in E. destruct (Enabled wb h). now injection E as <- <- <-.
  - unfold bind, ret in E. destruct (Status wb h). now injection E as <- <- <-.
  - unfold MaxCurrent in E. rewrite (MaxCurrentMillis_wired _ _ _ _ _ W) in E.
    injection E as <- <- <-. destruct (snd (bus h _)); reflexivity.
  - rewrite (MaxCurrentMillis_wired _ _ _ _ _ W) in E.
    injection E as <- <- <-. destruct (snd (bus h _)); reflexivity.
Qed.

(** Along any sequence of calls the adapter stays bound to its topics, its
    feature list is untouched, and its cache is the current last applied
    with success. *)
Lemma run_cache topic emTopic (cs : list call) :
  forall wb0 h0 errs wb h,
    wired topic emTopic wb0 ->
    run cs wb0 h0 = ((errs, wb), h) ->
    wired topic emTopic wb /\
    features wb = features wb0 /\
    current wb = last_applied (current wb0) cs errs.
Proof.
  induction cs as [|c cs IH]; intros wb0 h0 errs wb h W R.
  - cbn in R. injection R as <- <- <-. auto.
  - cbn [run] in R. unfold bind at 1 in R.
    destruct (exec c wb0 h0) as [[err wb1] h1] eqn:E.
    unfold bind, ret in R.
    destruct (run cs wb1 h1) as [[errs' wb2] h2] eqn:R'.
    injection R as <- <- <-.
    pose proof (exec_wired _ _ _ _ _ _ _ _ W E) as ->.
    cbn [last_applied].
    destruct (requested c) as [curr|], err as [e|];
      try (apply (IH _ _ _ _ _ W R')).
    destruct (IH _ _ _ _ _ (wired_set_current _ _ _ curr W) R') as (W2 & F2 & C2).
    auto.
Qed.

Lemma none_applied_last (cs : list call) :
  forall (init : Z) (errs : list (option error)),
    none_applied cs errs = true -> last_applied init cs errs = init.
Proof.
  induction cs as [|c cs IH]; intros init [|err errs] N; try reflexivity.
  cbn [none_applied last_applied] in *.
  destruct (requested c), err; try discriminate; auto.
Qed.

(** C8, as the code has it. In every state the adapter reaches, [Enable]
    issues exactly one request, a write to the current update topic:
    [Enable(false)] writes zero, and [Enable(true)] writes the cached
    current, the milliamp value of the last [MaxCurrent] or
    [MaxCurrentMillis] that succeeded, zero or not, and the initial value
    when none did. *)
Theorem Enable_writes_cached_current topic emTopic (cs : list call) wb0 h0 errs wb h
    (enable : bool) :
  wired topic emTopic wb0 ->
  run cs wb0 h0 = ((errs, wb), h) ->
  snd (Enable enable wb h) =
    h ++ [Publish (topic ++ "/evse/external_current_update")
            (if enable then last_applied (current wb0) cs errs else 0)].
Proof.
  intros W R. destruct (run_cache _ _ _ _ _ _ _ _ W R) as (W' & _ & C).
  rewrite (Enable_wired _ _ _ _ _ W'), C. reflexivity.
Qed.

Lemma step_eq {A} (r : request mqtt_Config) (k : M mqtt_Config (option A * option error)) h :
  step r k h =
    match snd (bus h r) with
    | Some err => ((None, Some err), h ++ [r])
    | None => k (h ++ [r])
    end.
Proof. unfold step, bind, perform, ret. destruct (snd (bus h r)); reflexivity. Qed.

(** What a successful construction returns. *)
Lemma NewWarp2_ok (mqttconf : mqtt_Config) (topic emTopic : string) (timeout : Duration)
    h0 wb h :
  NewWarp2 mqttconf topic emTopic timeout h0 = ((Some wb, None), h) ->
  wired topic emTopic wb /\ features wb = None /\ current wb = 6000.
Proof.
  unfold NewWarp2. intros R.
  repeat (rewrite step_eq in R;
          match type of R with
          | context [snd (bus ?g ?r)] => destruct (snd (bus g r)); [discriminate R|]
          end).
  unfold ret in R. injection R as <- <-. repeat split.
Qed.

(** The constructor never returns an adapter together with an error. *)
Lemma NewWarp2_result (mqttconf : mqtt_Config) (topic emTopic : string) (timeout : Duration)
    h0 :
  match fst (NewWarp2 mqttconf topic emTopic timeout h0) with
  | (Some _, None) | (None, Some _) => True
  | _ => False
  end.
Proof.
  unfold NewWarp2.
  repeat (rewrite step_eq;
          match goal with
          | |- context [snd (bus ?g ?r)] => destruct (snd (bus g r)); [exact I|]
          end).
  exact I.
Qed.

(** C10. The adapter a successful construction returns caches 6000 mA;
    as long as no [MaxCurrent] or [MaxCurrentMillis] call has succeeded,
    [Enable(true)] issues a write of 6000 mA. *)
Theorem Enable_before_MaxCurrent_writes_6000 (mqttconf : mqtt_Config)
    (topic emTopic : string) (timeout : Duration) h0 wb0 h1
    (cs : list call) errs wb h :
  NewWarp2 mqttconf topic emTopic timeout h0 = ((Some wb0, None), h1) ->
  run cs wb0 h1 = ((errs, wb), h) ->
  none_applied cs errs = true ->
  current wb0 = 6000 /\
  snd (Enable true wb h) =
    h ++ [Publish (topic ++ "/evse/external_current_update") 6000].
Proof.
  intros N R A. destruct (NewWarp2_ok _ _ _ _ _ _ _ N) as (W & _ & C).
  split; [exact C|].
  destruct (run_cache _ _ _ _ _ _ _ _ W R) as (W' & _ & C').
  rewrite (Enable_wired _ _ _ _ _ W'), C', (none_applied_last _ _ _ A), C.
  reflexivity.
Qed.
End Sequences.

(** ** The phase switch guard *)

Section Guard.
Context {mqtt_Config Other : Type} `{Ext : Externals mqtt_Config Other}.
Implicit Types (wb : @Warp2 mqtt_Config) (h : history mqtt_Config).

Lemma wired_emStateG topic emTopic wb :
  wired topic emTopic wb -> emStateG wb = getter (emTopic ++ "/energy_manager/state").
Proof. intros W. rewrite W. reflexivity. Qed.

Lemma wired_phasesS topic emTopic wb :
  wired topic emTopic wb ->
  phasesS wb = setter (emTopic ++ "/energy_manager/external_control_update").
Proof. intros W. rewrite W. reflexivity. Qed.

(** The phase switch, case by case: the read of the energy manager state
    comes first; a failed read or decoding returns its error and writes
    nothing; the guard [res.ExternalControl > 0] decides between the error
    naming the mode and the write. *)
Lemma phases1p3p_checks_control_mode topic emTopic wb h (phases : Z)
    (s : string) (err : option error) :
  wired topic emTopic wb ->
  let state := (emTopic ++ "/energy_manager/state")%string in
  let update := (emTopic ++ "/energy_manager/external_control_update")%string in
  bus h (Receive state) = (s, err) ->
  (exists rest, snd (phases1p3p phases wb h) = h ++ Receive state :: rest) /\
  (forall e, err = Some e ->
     phases1p3p phases wb h = (Some e, h ++ [Receive state])) /\
  (forall res e, err = None -> json_Unmarshal s (zero : EmState) = (res, Some e) ->
     phases1p3p phases wb h = (Some e, h ++ [Receive state])) /\
  (forall res, err = None -> json_Unmarshal s (zero : EmState) = (res, None) ->
     let mode := externalControl res in
     (0 < mode ->
        phases1p3p phases wb h =
          (Some (control_unavailable mode), h ++ [Receive state])) /\
     (mode <= 0 ->
        phases1p3p phases wb h =
          (snd (bus (h ++ [Receive state]) (Publish update phases)),
           h ++ [Receive state; Publish update phases]))).
Proof.
  intros W state update B.
  assert (E : phases1p3p phases wb h =
              match err with
              | Some e => (Some e, h ++ [Receive state])
              | None =>
                  let '(res, err) := json_Unmarshal s (zero : EmState) in
                  match err with
                  | Some e => (Some e, h ++ [Receive state])
                  | None =>
                      if 0 <? externalControl res
                      then (Some (control_unavailable (externalControl res)),
                            h ++ [Receive state])
                      else (snd (bus (h ++ [Receive state]) (Publish update phases)),
                            h ++ [Receive state; Publish update phases])
                  end
              end).
  { unfold phases1p3p, emState, bind, ret.
    rewrite (wired_emStateG _ _ _ W), (wired_phasesS _ _ _ W).
    unfold getter, perform. fold state update. rewrite B.
    destruct err as [e|]; [reflexivity|].
    destruct (json_Unmarshal s zero) as [res [e|]]; [reflexivity|].
    destruct (0 <? externalControl res); [reflexivity|].
    rewrite setter_eq, <- app_assoc. reflexivity. }
  rewrite E. split; [|split; [|split]].
  - destruct err as [e|]; [eexists; reflexivity|].
    destruct (json_Unmarshal s zero) as [res [e|]]; [eexists; reflexivity|].
    destruct (0 <? externalControl res); eexists; reflexivity.
  - intros e ->. reflexivity.
  - intros res e -> ->. reflexivity.
  - intros res -> ->. cbv zeta. split; intros L.
    + apply Z.ltb_lt in L. rewrite L. reflexivity.
    + destruct (Z.ltb_spec 0 (externalControl res)); [lia | reflexivity].
Qed.
(** C5. Every [Phases(n)], for any [n], starts with a fresh read of the
    energy manager state topic. When that read reports a control mode of
    the enum (the modes are numbered from 0): for mode 1, and for any other
    nonzero mode, the call fails with an error naming the mode and issues no
    phase write; for mode 0 it issues the phases_wanted write of [n]. *)
Theorem phases1p3p_guards_control_mode topic emTopic wb h (phases : Z)
    (s : string) (err : option error) :
  wired topic emTopic wb ->
  let state := (emTopic ++ "/energy_manager/state")%string in
  let update := (emTopic ++ "/energy_manager/external_control_update")%string in
  bus h (Receive state) = (s, err) ->
  (exists rest, snd (phases1p3p phases wb h) = h ++ Receive state :: rest) /\
  (forall res, err = None -> json_Unmarshal s (zero : EmState) = (res, None) ->
     let mode := externalControl res in
     0 <= mode ->
     (mode <> 0 ->
        phases1p3p phases wb h =
          (Some (control_unavailable mode), h ++ [Receive state])) /\
     (mode = 0 ->
        phases1p3p phases wb h =
          (snd (bus (h ++ [Receive state]) (Publish update phases)),
           h ++ [Receive state; Publish update phases]))).
Proof.
  intros W state update B.
  destruct (phases1p3p_checks_control_mode _ _ _ _ phases _ _ W B) as (F & _ & _ & G).
  split; [exact F|].
  intros res E D mode P. destruct (G res E D) as (Pos & Zero).
  fold mode in Pos, Zero. split.
  - intros N. apply Pos. lia.
  - intros Z. apply Zero. lia.
Qed.
End Guard.

(** ** Feature discovery *)

Section Discovery.
Context {mqtt_Config Other : Type} `{Ext : Externals mqtt_Config Other}.
Implicit Types (wb : @Warp2 mqtt_Config) (h : history mqtt_Config).

Lemma received_app (topic : string) h h' :
  received topic (h ++ h') = (received topic h + received topic h')%nat.
Proof.
  induction h as [|r h IH]; [reflexivity|].
  destruct r; cbn [received app]; try exact IH.
  destruct (String.eqb topic0 topic); cbn; now rewrite IH.
Qed.

Lemma set_features_same wb : set_features wb (features wb) = wb.
Proof. destruct wb; reflexivity. Qed.

(** With a feature list in place the call is a lookup: no request. *)
Lemma hasFeature_cached (root feature : string) (timeout : Duration) wb h :
  features wb <> None ->
  hasFeature root feature timeout wb h = ((slices_Contains (features wb) feature, wb), h).
Proof.
  intros N. unfold hasFeature. destruct (features wb); [reflexivity | now contradiction N].
Qed.

Lemma hasFeatures_cached (root : string) (timeout : Duration) (queries : list string) wb h :
  features wb <> None ->
  hasFeatures root timeout queries wb h =
    ((map (slices_Contains (features wb)) queries, wb), h).
Proof.
  intros N. induction queries as [|q queries IH]; [reflexivity|].
  cbn [hasFeatures map]. unfold bind at 1. rewrite (hasFeature_cached _ _ _ _ _ N).
  unfold bind, ret. rewrite IH. reflexivity.
Qed.

(** The shape of a call made without a feature list: a subscription and,
    when it succeeds, one read. *)
Lemma hasFeature_probe (root feature : string) (timeout : Duration) wb h :
  features wb = None ->
  snd (hasFeature root feature timeout wb h) = after_probe root timeout h.
Proof.
  intros N. unfold hasFeature, after_probe, bind, ret, getter, perform. rewrite N.
  cbn [snd fst]. destruct (snd (bus h _)); [reflexivity|].
  rewrite <- app_assoc. cbn [app].
  destruct (bus _ (Receive _)) as [data [e|]]; [reflexivity|].
  destruct (json_Unmarshal data None) as [fs [e|]]; reflexivity.
Qed.

(** A probe that fails answers false and leaves the adapter as it was. *)
Lemma hasFeature_failed_probe (root feature : string) (timeout : Duration) wb h :
  features wb = None ->
  probe_fails root timeout h = true ->
  hasFeature root feature timeout wb h = ((false, wb), after_probe root timeout h).
Proof.
  intros N P. unfold hasFeature, probe_fails, after_probe, bind, ret, getter, perform in *.
  rewrite N. cbn [snd fst] in *. destruct (snd (bus h _)); [reflexivity|].
  rewrite <- app_assoc. cbn [app].
  destruct (bus _ (Receive _)) as [data [e|]]; [reflexivity|].
  destruct (json_Unmarshal data None) as [[fs|] [e|]]; try discriminate P.
  rewrite <- N, set_features_same. reflexivity.
Qed.

(** C6, as the code has it. A [hasFeature] call reads the capability list
    topic at most once. Once a call has left a feature list on the
    adapter, every subsequent call consults that list only and makes no
    request to the bus. A call that leaves no list (a failed probe) is not
    remembered: the next call subscribes and probes again. *)
Theorem hasFeature_caches_a_fetched_list (root feature : string) (timeout : Duration)
    wb0 h0 (b : bool) wb1 h1 :
  hasFeature root feature timeout wb0 h0 = ((b, wb1), h1) ->
  let topic := (root ++ "/info/features")%string in
  (received topic h1 <= S (received topic h0))%nat /\
  (features wb1 <> None ->
     forall queries : list string,
       hasFeatures root timeout queries wb1 h1 =
         ((map (slices_Contains (features wb1)) queries, wb1), h1)) /\
  (features wb1 = None ->
     forall feature' : string,
       exists rest,
         snd (hasFeature root feature' timeout wb1 h1) =
           h1 ++ Subscribe topic timeout :: rest).
Proof.
  intros R topic. split; [|split].
  - destruct (features wb0) as [fs|] eqn:F.
    + rewrite hasFeature_cached in R by congruence. injection R as _ _ <-. lia.
    + pose proof (hasFeature_probe root feature timeout _ h0 F) as P.
      rewrite R in P. cbn [snd] in P. subst h1. unfold after_probe. fold topic.
      destruct (snd (bus h0 _)); rewrite received_app; cbn [received];
        [|rewrite String.eqb_refl]; lia.
  - intros N queries. apply hasFeatures_cached, N.
  - intros N feature'. rewrite (hasFeature_probe _ _ _ _ _ N). unfold after_probe.
    fold topic. destruct (snd (bus h1 _)); eexists; reflexivity.
Qed.

(** Whatever the probes and the energy manager answer, the composer
    returns a charger and no error once the configuration has been decoded
    and the adapter constructed. *)
Lemma NewWarp2FromConfig_no_error (other : Other) h0 (conf : cc mqtt_Config) wb h1 :
  DecodeOther other {| Config := mqtt_Config_zero; Topic := warp_RootTopic;
                       EnergyManager := ""; Timeout := warp_Timeout |} = (conf, None) ->
  NewWarp2 (Config conf) (Topic conf) (EnergyManager conf) (Timeout conf) h0
    = ((Some wb, None), h1) ->
  exists charger h, NewWarp2FromConfig other h0 = ((Some charger, None), h).
Proof.
  intros D N. unfold NewWarp2FromConfig. rewrite D. unfold bind at 1. rewrite N.
  unfold bind at 1. destruct (hasFeature _ _ _ wb h1) as [[b1 wb1] g1].
  unfold bind at 1. destruct (hasFeature _ _ _ wb1 g1) as [[b2 wb2] g2].
  unfold bind at 1. destruct (hasFeature _ _ _ wb2 g2) as [[b3 wb3] g3].
  unfold bind at 1.
  match goal with
  | |- context [?c g3] => destruct (c g3) as [ph hf]
  end.
  eexists _, _. reflexivity.
Qed.

(** A probe that ends in an error answers false, also when the decoder has
    stored a list before it reported its error. *)
Lemma hasFeature_probe_error (root feature : string) (timeout : Duration) wb h :
  features wb = None ->
  probe_errors root timeout h = true ->
  fst (fst (hasFeature root feature timeout wb h)) = false.
Proof.
  intros N P. unfold hasFeature, probe_errors, bind, ret, getter, perform in *.
  rewrite N. cbn [snd fst] in *. destruct (snd (bus h _)); [reflexivity|].
  destruct (bus _ (Receive _)) as [data [e|]]; [reflexivity|].
  destruct (json_Unmarshal data None) as [fs [e|]]; cbn [snd] in P;
    [reflexivity | discriminate P].
Qed.

(** A probe that fails and leaves the list nil ends in an error. *)
Lemma probe_fails_errors (root : string) (timeout : Duration) h :
  probe_fails root timeout h = true -> probe_errors root timeout h = true.
Proof.
  unfold probe_fails, probe_errors. destruct (snd (bus h _)); [reflexivity|].
  destruct (bus _ (Receive _)) as [data [e|]]; [reflexivity|].
  destruct (json_Unmarshal data None) as [[fs|] [e|]]; cbn [snd];
    try reflexivity; discriminate.
Qed.

(** C7, as the code has it. A [hasFeature] call whose probe fails with a
    transport or parse error (a failed subscription, a failed read, or any
    error of the decoder, whatever it has stored by then) answers false and
    raises no error, and whatever the probes answer the construction
    returns a charger and no error. When each of the three probes of the
    construction fails and leaves the feature list nil, the charger exposes
    none of the contracts that depend on a feature: no power and energy
    metering, no phase currents and voltages, no identification. *)
Theorem failed_discovery_exposes_no_feature (other : Other) h0 :
  (forall (root feature : string) (timeout : Duration) wb h,
     features wb = None ->
     probe_errors root timeout h = true ->
     fst (fst (hasFeature root feature timeout wb h)) = false) /\
  (forall (conf : cc mqtt_Config) wb h1,
     DecodeOther other {| Config := mqtt_Config_zero; Topic := warp_RootTopic;
                          EnergyManager := ""; Timeout := warp_Timeout |}
       = (conf, None) ->
     NewWarp2 (Config conf) (Topic conf) (EnergyManager conf) (Timeout conf) h0
       = ((Some wb, None), h1) ->
     exists charger h, NewWarp2FromConfig other h0 = ((Some charger, None), h)) /\
  (forall (conf : cc mqtt_Config) wb h1,
     DecodeOther other {| Config := mqtt_Config_zero; Topic := warp_RootTopic;
                          EnergyManager := ""; Timeout := warp_Timeout |}
       = (conf, None) ->
     NewWarp2 (Config conf) (Topic conf) (EnergyManager conf) (Timeout conf) h0
       = ((Some wb, None), h1) ->
     probes_fail 3 (Topic conf) (Timeout conf) h1 = true ->
     exists charger h,
       NewWarp2FromConfig other h0 = ((Some charger, None), h) /\
       exposed (CurrentPower charger) = false /\
       exposed (TotalEnergy charger) = false /\
       exposed (Currents charger) = false /\
       exposed (Voltages charger) = false /\
       exposed (Identify charger) = false).
Proof.
  split; [|split].
  - intros root feature timeout wb h. apply hasFeature_probe_error.
  - intros conf wb h1 D N. apply (NewWarp2FromConfig_no_error _ _ _ _ _ D N).
  - intros conf wb h1 D N P. destruct (NewWarp2_ok _ _ _ _ _ _ _ N) as (_ & F & _).
    cbn [probes_fail] in P.
    apply andb_prop in P as (P1 & P). apply andb_prop in P as (P2 & P).
    apply andb_prop in P as (P3 & _).
    unfold NewWarp2FromConfig. rewrite D. unfold bind at 1. rewrite N.
    unfold bind at 1. rewrite (hasFeature_failed_probe _ _ _ _ _ F P1).
    unfold bind at 1. rewrite (hasFeature_failed_probe _ _ _ _ _ F P2).
    unfold bind at 1. rewrite (hasFeature_failed_probe _ _ _ _ _ F P3).
    unfold bind at 1.
    match goal with
    | |- context [?c (after_probe ?r ?t ?g)] =>
        destruct (c (after_probe r t g)) as [ph hf]
    end.
    eexists _, _. split; [reflexivity|]. repeat split.
Qed.
End Discovery.

(** * The properties on the simulated device *)

Lemma sim_wired (s : script) (fs : option (list string)) (curr : Z) :
  @wired unit (cc unit) (sim s) "warp" "wem" (sim_wb s fs curr).
Proof. reflexivity. Qed.

(** The floats of the examples are the ones Go denotes by 6.3 and 1.001. *)
Example f64_6_3_nearest : f64_div (float64_of_int 63) (float64_of_int 10) = f64_6_3.
Proof. reflexivity. Qed.

Example f64_1_001_nearest : f64_div (float64_of_int 1001) (float64_of_int 1000) = f64_1_001.
Proof. reflexivity. Qed.

(** The float product is rounded before the fraction is discarded: 6.3 A is
    6300 mA although the float 6.3 lies below 63/10, and 1.001 A is 1000 mA. *)
Example millis_6_3 : float64_trunc (f64_mul f64_6_3 f64_1e3) = Some 6300.
Proof. reflexivity. Qed.

Example millis_1_001 : float64_trunc (f64_mul f64_1_001 f64_1e3) = Some 1000.
Proof. reflexivity. Qed.

(** C2 on a charging car, and on the unknown state code 4. *)
Lemma Status_maps_state_codes_witness :
  @Status unit (cc unit) (sim sim_charging) (sim_wb sim_charging None 6000) []
    = ((StatusC, None), [Receive "warp/evse/state"]) /\
  @Status unit (cc unit) (sim sim_state_4) (sim_wb sim_state_4 None 6000) []
    = ((StatusNone, Some "invalid status: 4"), [Receive "warp/evse/state"]).
Proof.
  split.
  - refine (proj1 (proj2 (proj2
      (Status_maps_state_codes (Ext := sim sim_charging)
         (sim_wb sim_charging None 6000) [] [Receive "warp/evse/state"]
         (json_field "iec61851_state" "2") {| Iec61851State := 2 |} _ _))) _);
      reflexivity.
  - refine (proj1 (proj2 (proj2 (proj2
      (Status_maps_state_codes (Ext := sim sim_state_4)
         (sim_wb sim_state_4 None 6000) [] [Receive "warp/evse/state"]
         (json_field "iec61851_state" "4") {| Iec61851State := 4 |} _ _))) _ _ _));
      try reflexivity; discriminate.
Defined.

(** C3 on a device that reports 16 A after the adapter has set 16 A. *)
Lemma Enabled_reports_hardware_current_witness :
  @Enabled unit (cc unit) (sim sim_charging) (sim_wb sim_charging None 16000)
    [Publish "warp/evse/external_current_update" 16000]
  = ((true, None),
     [Publish "warp/evse/external_current_update" 16000;
      Receive "warp/evse/external_current"]).
Proof.
  destruct (proj1
    (Enabled_reports_hardware_current (Ext := sim sim_charging)
       [CallMaxCurrent 16] (sim_wb sim_charging None 6000) [] [None]
       (sim_wb sim_charging None 16000)
       [Publish "warp/evse/external_current_update" 16000]
       (json_field "current" "16000") None
       [Publish "warp/evse/external_current_update" 16000;
        Receive "warp/evse/external_current"]
       eq_refl eq_refl)
    {| Current := 16000 |} eq_refl eq_refl) as (on & E & I).
  rewrite E. rewrite (proj2 I); [reflexivity | discriminate].
Defined.

(** C4 on six values, and on five. *)
Lemma phase_reads_by_length_witness :
  (@voltages unit (cc unit) (sim sim_charging) (sim_wb sim_charging None 6000) []
     = (Some (float64_of_int 230, float64_of_int 231, float64_of_int 229, None),
        [Receive "warp/meter/all_values"]) /\
   @currents unit (cc unit) (sim sim_charging) (sim_wb sim_charging None 6000) []
     = (Some (float64_of_int 16, float64_of_int 15, float64_of_int 14, None),
        [Receive "warp/meter/all_values"])) /\
  (@currents unit (cc unit) (sim sim_short_meter) (sim_wb sim_short_meter None 6000) []
     = (Some (f64_0, f64_0, f64_0, Some "invalid length"),
        [Receive "warp/meter/all_values"]) /\
   @voltages unit (cc unit) (sim sim_short_meter) (sim_wb sim_short_meter None 6000) []
     = (Some (f64_0, f64_0, f64_0, Some "invalid length"),
        [Receive "warp/meter/all_values"])).
Proof.
  split.
  - refine (proj2
      (phase_reads_by_length (Ext := sim sim_charging)
         (sim_wb sim_charging None 6000) [] [Receive "warp/meter/all_values"]
         "[230,231,229,16,15,14]"
         (Some (map float64_of_int [230; 231; 229; 16; 15; 14])) eq_refl eq_refl)
      _ _ _ _ _ _ eq_refl).
  - refine (proj1
      (phase_reads_by_length (Ext := sim sim_short_meter)
         (sim_wb sim_short_meter None 6000) [] [Receive "warp/meter/all_values"]
         "[230,231,229,16,15]"
         (Some (map float64_of_int [230; 231; 229; 16; 15])) eq_refl eq_refl)
      _).
    discriminate.
Defined.



(** C1 on 6.3 A with a write that succeeds, and on 16 A with a write that is
    refused after 10 A had been applied. *)
Lemma MaxCurrentMillis_caches_on_success_witness :
  (@MaxCurrentMillis unit (cc unit) (sim sim_charging) f64_6_3
     (sim_wb sim_charging None 6000) []
     = ((None, sim_wb sim_charging None 6300),
        [Publish "warp/evse/external_current_update" 6300]) /\
   snd (Enable (mqtt_Config := unit) true (sim_wb sim_charging None 6300)
          [Publish "warp/evse/external_current_update" 6300])
     = [Publish "warp/evse/external_current_update" 6300;
        Publish "warp/evse/external_current_update" 6300]) /\
  (@MaxCurrentMillis unit (cc unit) (sim sim_refused_write) (float64_of_int 16)
     (sim_wb sim_refused_write None 10000)
     [Publish "warp/evse/external_current_update" 10000]
     = ((Some "publish failed", sim_wb sim_refused_write None 10000),
        [Publish "warp/evse/external_current_update" 10000;
         Publish "warp/evse/external_current_update" 16000]) /\
   snd (Enable (mqtt_Config := unit) true
          (sim_wb sim_refused_write None 10000)
          [Publish "warp/evse/external_current_update" 10000;
           Publish "warp/evse/external_current_update" 16000])
     = [Publish "warp/evse/external_current_update" 10000;
        Publish "warp/evse/external_current_update" 16000;
        Publish "warp/evse/external_current_update" 10000]).
Proof.
  split; (split; [reflexivity|]).
  - exact (proj2 (proj2 (proj2 (proj2 (proj2 (proj2
      (MaxCurrentMillis_caches_on_success (Ext := sim sim_charging) "warp" "wem"
         (sim_wb sim_charging None 6000) [] f64_6_3 None
         (sim_wb sim_charging None 6300)
         [Publish "warp/evse/external_current_update" 6300]
         (sim_wired _ _ _) eq_refl))))))).
  - exact (proj2 (proj2 (proj2 (proj2 (proj2 (proj2
      (MaxCurrentMillis_caches_on_success (Ext := sim sim_refused_write) "warp" "wem"
         (sim_wb sim_refused_write None 10000)
         [Publish "warp/evse/external_current_update" 10000]
         (float64_of_int 16) (Some "publish failed")
         (sim_wb sim_refused_write None 10000)
         [Publish "warp/evse/external_current_update" 10000;
          Publish "warp/evse/external_current_update" 16000]
         (sim_wired _ _ _) eq_refl))))))).
Defined.

(** C8 in the wording of the specification fails after a successful write
    of zero: 7 A is applied, then 0 A; the last nonzero current applied is
    7000 mA, and [Enable(true)] writes 0. *)
Lemma Enable_true_writes_a_cached_zero :
  let run2 := @run unit (cc unit) (sim sim_offline)
                [CallMaxCurrent 7; CallMaxCurrent 0] (sim_wb sim_offline None 6000) [] in
  fst (fst run2) = [None; None] /\
  snd run2 = [Publish "warp/evse/external_current_update" 7000;
              Publish "warp/evse/external_current_update" 0] /\
  @last_applied_nonzero unit (cc unit) (sim sim_offline) 6000
    [CallMaxCurrent 7; CallMaxCurrent 0] (fst (fst run2)) = 7000 /\
  snd (Enable (mqtt_Config := unit) true (snd (fst run2)) (snd run2))
    = snd run2 ++ [Publish "warp/evse/external_current_update" 0].
Proof. repeat split. Qed.

(** C8 as the code has it, after 10 A applied and 16 A refused: [Enable(true)]
    writes 10000 mA, [Enable(false)] writes zero. *)
Lemma Enable_writes_cached_current_witness :
  let run2 := @run unit (cc unit) (sim sim_refused_write)
                [CallMaxCurrent 10; CallMaxCurrent 16] (sim_wb sim_refused_write None 6000) [] in
  fst (fst run2) = [None; Some "publish failed"] /\
  snd (Enable (mqtt_Config := unit) true (snd (fst run2)) (snd run2))
    = snd run2 ++ [Publish "warp/evse/external_current_update" 10000] /\
  snd (Enable (mqtt_Config := unit) false (snd (fst run2)) (snd run2))
    = snd run2 ++ [Publish "warp/evse/external_current_update" 0].
Proof.
  cbv zeta. split; [reflexivity|]. split.
  - exact (Enable_writes_cached_current (Ext := sim sim_refused_write) "warp" "wem"
             [CallMaxCurrent 10; CallMaxCurrent 16] (sim_wb sim_refused_write None 6000) []
             _ _ _ true (sim_wired _ _ _) eq_refl).
  - exact (Enable_writes_cached_current (Ext := sim sim_refused_write) "warp" "wem"
             [CallMaxCurrent 10; CallMaxCurrent 16] (sim_wb sim_refused_write None 6000) []
             _ _ _ false (sim_wired _ _ _) eq_refl).
Defined.

(** C10 on a fresh adapter that is disabled and then refused 16 A. *)
Lemma Enable_before_MaxCurrent_writes_6000_witness :
  let calls := [CallEnable false; CallMaxCurrent 16] in
  let run2 := @run unit (cc unit) (sim sim_refused_write) calls
                (sim_wb sim_refused_write None 6000) (snd (sim_new sim_refused_write)) in
  sim_new sim_refused_write
    = ((Some (sim_wb sim_refused_write None 6000), None), snd (sim_new sim_refused_write)) /\
  @none_applied unit (cc unit) (sim sim_refused_write) calls (fst (fst run2)) = true /\
  snd (Enable (mqtt_Config := unit) true (snd (fst run2)) (snd run2))
    = snd run2 ++ [Publish "warp/evse/external_current_update" 6000].
Proof.
  cbv zeta. split; [reflexivity|]. split; [reflexivity|].
  exact (proj2
    (Enable_before_MaxCurrent_writes_6000 (Ext := sim sim_refused_write)
       tt "warp" "wem" (30 * 1000000000) [] (sim_wb sim_refused_write None 6000)
       (snd (sim_new sim_refused_write))
       [CallEnable false; CallMaxCurrent 16] _ _ _ eq_refl eq_refl eq_refl)).
Defined.

(** C5 on the control modes 3 and 0. *)
Lemma phases1p3p_guards_control_mode_witness :
  @phases1p3p unit (cc unit) (sim (sim_mode "3")) 1 (sim_wb (sim_mode "3") None 6000) []
    = (Some "external control not available: ExternalControl(3)",
       [Receive "wem/energy_manager/state"]) /\
  @phases1p3p unit (cc unit) (sim (sim_mode "0")) 1 (sim_wb (sim_mode "0") None 6000) []
    = (None,
       [Receive "wem/energy_manager/state";
        Publish "wem/energy_manager/external_control_update" 1]).
Proof.
  split.
  - refine (proj1 (proj2
      (phases1p3p_guards_control_mode (Ext := sim (sim_mode "3")) "warp" "wem"
         (sim_wb (sim_mode "3") None 6000) [] 1
         (json_field "external_control" "3") None (sim_wired _ _ _) eq_refl)
      {| externalControl := 3 |} eq_refl eq_refl _) _); discriminate.
  - refine (proj2 (proj2
      (phases1p3p_guards_control_mode (Ext := sim (sim_mode "0")) "warp" "wem"
         (sim_wb (sim_mode "0") None 6000) [] 1
         (json_field "external_control" "0") None (sim_wired _ _ _) eq_refl)
      {| externalControl := 0 |} eq_refl eq_refl _) _);
      [discriminate | reflexivity].
Defined.

(** C6 in the wording of the specification fails when the probes fail: on
    a device that does not answer, three [hasFeature] calls read the
    capability list topic three times. *)
Lemma hasFeature_probes_again_after_a_failure :
  let probes := @hasFeatures unit (cc unit) (sim sim_offline) "warp" (30 * 1000000000)
                  ["meter"; "meter_phases"; "nfc"] (sim_wb sim_offline None 6000) [] in
  fst (fst probes) = [false; false; false] /\
  received "warp/info/features" (snd probes) = 3%nat.
Proof. split; reflexivity. Qed.

(** C6 as the code has it, on a device that answers the first probe. *)
Lemma hasFeature_caches_a_fetched_list_witness :
  let fs := Some ["meter"; "meter_phases"; "nfc"] in
  let h1 := [Subscribe "warp/info/features" (30 * 1000000000);
             Receive "warp/info/features"] in
  @hasFeature unit (cc unit) (sim sim_charging) "warp" "meter" (30 * 1000000000)
    (sim_wb sim_charging None 6000) []
    = ((true, sim_wb sim_charging fs 6000), h1) /\
  @hasFeatures unit (cc unit) (sim sim_charging) "warp" (30 * 1000000000)
    ["meter_phases"; "nfc"; "phase_switch"] (sim_wb sim_charging fs 6000) h1
    = (([true; true; false], sim_wb sim_charging fs 6000), h1).
Proof.
  cbv zeta. split; [reflexivity|].
  refine (proj1 (proj2
    (hasFeature_caches_a_fetched_list (Ext := sim sim_charging) "warp" "meter"
       (30 * 1000000000) (sim_wb sim_charging None 6000) [] true
       (sim_wb sim_charging (Some ["meter"; "meter_phases"; "nfc"]) 6000)
       [Subscribe "warp/info/features" (30 * 1000000000); Receive "warp/info/features"]
       eq_refl)) _ ["meter_phases"; "nfc"; "phase_switch"]).
  discriminate.
Defined.

(** C7 in the wording of the specification fails in two ways. On a device
    whose feature topic times out once, the first probe fails and
    [hasFeature] answers false, yet the second probe succeeds and the
    charger exposes the phase currents and voltages. On a device whose
    feature list holds a number after a capability token, the decoder
    reports the mismatch after having stored the list: the first call
    answers false, the following calls find the list, and the charger
    exposes the phase currents and voltages as well. In both cases the
    construction succeeds. *)
Lemma failed_probe_still_exposes_phase_meter :
  (fst (fst (@hasFeature unit (cc unit) (sim sim_late_features) "warp" "meter"
               (30 * 1000000000) (sim_wb sim_late_features None 6000)
               (snd (sim_new sim_late_features)))) = false /\
   option_map capabilities (fst (fst (sim_new_from_config sim_late_features)))
     = Some (false, false, true, true, false, false) /\
   snd (fst (sim_new_from_config sim_late_features)) = None) /\
  (snd (json_Unmarshal (Unmarshal := sim_strings)
          (json_array [json_string "meter_phases"; "1"]) None) <> None /\
   fst (fst (@hasFeature unit (cc unit) (sim sim_odd_features) "warp" "meter"
               (30 * 1000000000) (sim_wb sim_odd_features None 6000)
               (snd (sim_new sim_odd_features)))) = false /\
   option_map capabilities (fst (fst (sim_new_from_config sim_odd_features)))
     = Some (false, false, true, true, false, false) /\
   snd (fst (sim_new_from_config sim_odd_features)) = None).
Proof. repeat split; discriminate. Qed.

(** C7 as the code has it: on a device whose feature list holds a number
    after the token of the phase meter, the query for that very token
    answers false, the decoder having reported its error; on a device that
    does not answer, no feature is exposed. *)
Lemma failed_discovery_exposes_no_feature_witness :
  @probe_errors unit (cc unit) (sim sim_odd_features) "warp" (30 * 1000000000)
    (snd (sim_new sim_odd_features)) = true /\
  fst (fst (@hasFeature unit (cc unit) (sim sim_odd_features) "warp" "meter_phases"
              (30 * 1000000000) (sim_wb sim_odd_features None 6000)
              (snd (sim_new sim_odd_features)))) = false /\
  sim_new sim_offline = ((Some (sim_wb sim_offline None 6000), None), snd (sim_new sim_offline)) /\
  @probes_fail unit (cc unit) (sim sim_offline) 3 "warp" (30 * 1000000000)
    (snd (sim_new sim_offline)) = true /\
  exists charger h,
    sim_new_from_config sim_offline = ((Some charger, None), h) /\
    exposed (CurrentPower charger) = false /\
    exposed (TotalEnergy charger) = false /\
    exposed (Currents charger) = false /\
    exposed (Voltages charger) = false /\
    exposed (Identify charger) = false.
Proof.
  split; [reflexivity|]. split.
  - exact (proj1
      (failed_discovery_exposes_no_feature (Ext := sim sim_odd_features) sim_cc [])
      "warp" "meter_phases" (30 * 1000000000) (sim_wb sim_odd_features None 6000)
      (snd (sim_new sim_odd_features)) eq_refl eq_refl).
  - split; [reflexivity|]. split; [reflexivity|].
    exact (proj2 (proj2
      (failed_discovery_exposes_no_feature (Ext := sim sim_offline) sim_cc []))
      sim_cc (sim_wb sim_offline None 6000) (snd (sim_new sim_offline))
      eq_refl eq_refl eq_refl).
Defined.

(** * Further properties of the adapter *)

(** ** Errors of the reads *)

Section ReadErrors.
Context {mqtt_Config Other : Type} `{Ext : Externals mqtt_Config Other}.
Implicit Types (wb : @Warp2 mqtt_Config) (h : history mqtt_Config).

(** X1. Whatever the device answers, [Status] returns either one of the
    three charge states without an error, or no status with an error: a
    status never comes with an error, and a missing status never without. *)
Theorem Status_status_or_error wb h :
  match fst (Status wb h) with
  | (StatusA, None) | (StatusB, None) | (StatusC, None) => True
  | (StatusNone, Some _) => True
  | _ => False
  end.
Proof.
  unfold Status, bind, ret.
  destruct (statusG wb h) as [[s [e|]] h']; cbn [fst]; [exact I|].
  destruct (json_Unmarshal s zero) as [status [e|]]; cbn [fst]; [exact I|].
  destruct (Iec61851State status) as [|[p|p|]|p]; cbn [fst]; try exact I;
    destruct p; exact I.
Qed.

(** The reads of an adapter bound to its topics, as requests to the bus. *)
Lemma wired_getters topic emTopic wb :
  wired topic emTopic wb ->
  maxcurrentG wb = getter (topic ++ "/evse/external_current") /\
  statusG wb = getter (topic ++ "/evse/state") /\
  meterG wb = getter (topic ++ "/meter/values") /\
  meterDetailsG wb = getter (topic ++ "/meter/all_values") /\
  chargeG wb = getter (topic ++ "/charge_tracker/current_charge") /\
  emStateG wb = getter (emTopic ++ "/energy_manager/state").
Proof. intros W. rewrite W. repeat split. Qed.

(** X2. When the read of the bus fails, every read operation of the
    adapter returns that error together with the zero value of its result,
    after the one read of its own topic; the phase switch returns the error
    and writes nothing. *)
Theorem read_failure_surfaces topic emTopic wb h (e : error) (phases : Z) :
  wired topic emTopic wb ->
  (forall t, snd (bus h (Receive t)) = Some e) ->
  Enabled wb h = ((false, Some e), h ++ [Receive (topic ++ "/evse/external_current")]) /\
  Status wb h = ((StatusNone, Some e), h ++ [Receive (topic ++ "/evse/state")]) /\
  currentPower wb h = ((f64_0, Some e), h ++ [Receive (topic ++ "/meter/values")]) /\
  totalEnergy wb h = ((f64_0, Some e), h ++ [Receive (topic ++ "/meter/values")]) /\
  currents wb h
    = (Some (f64_0, f64_0, f64_0, Some e), h ++ [Receive (topic ++ "/meter/all_values")]) /\
  voltages wb h
    = (Some (f64_0, f64_0, f64_0, Some e), h ++ [Receive (topic ++ "/meter/all_values")]) /\
  identify wb h
    = (("", Some e), h ++ [Receive (topic ++ "/charge_tracker/current_charge")]) /\
  phases1p3p phases wb h
    = (Some e, h ++ [Receive (emTopic ++ "/energy_manager/state")]).
Proof.
  intros W B.
  destruct (wired_getters _ _ _ W) as (G1 & G2 & G3 & G4 & G5 & G6).
  assert (R : forall t, getter t h = ((fst (bus h (Receive t)), Some e), h ++ [Receive t])).
  { intros t. unfold getter, perform. rewrite (surjective_pairing (bus h (Receive t))).
    cbn [fst snd]. now rewrite B. }
  unfold Enabled, Status, currentPower, totalEnergy, currents, voltages, meterValues,
    identify, phases1p3p, emState, bind, ret.
  rewrite G1, G2, G3, G4, G5, G6, !R. repeat split.
Qed.

(** X3. When the payload is delivered and the decoder rejects it, every
    read operation returns the decoder's error; [Status], [currents] and
    [voltages] then return their zero values, whatever the decoder has left
    in its target, and the phase switch writes nothing. *)
Theorem decode_failure_surfaces topic emTopic wb h (s : string) (e : error) (phases : Z) :
  wired topic emTopic wb ->
  (forall t, bus h (Receive t) = (s, None)) ->
  (forall res, json_Unmarshal s (zero : EvseExternalCurrent) = (res, Some e) ->
     snd (fst (Enabled wb h)) = Some e) /\
  (forall res, json_Unmarshal s (zero : EvseState) = (res, Some e) ->
     fst (Status wb h) = (StatusNone, Some e)) /\
  (forall res, json_Unmarshal s (zero : MeterValues) = (res, Some e) ->
     snd (fst (currentPower wb h)) = Some e /\ snd (fst (totalEnergy wb h)) = Some e) /\
  (forall res, json_Unmarshal s (zero : option (list float64)) = (res, Some e) ->
     fst (currents wb h) = Some (f64_0, f64_0, f64_0, Some e) /\
     fst (voltages wb h) = Some (f64_0, f64_0, f64_0, Some e)) /\
  (forall res, json_Unmarshal s (zero : ChargeTrackerCurrentCharge) = (res, Some e) ->
     snd (fst (identify wb h)) = Some e) /\
  (forall res, json_Unmarshal s (zero : EmState) = (res, Some e) ->
     phases1p3p phases wb h = (Some e, h ++ [Receive (emTopic ++ "/energy_manager/state")])).
Proof.
  intros W B.
  destruct (wired_getters _ _ _ W) as (G1 & G2 & G3 & G4 & G5 & G6).
  assert (R : forall t, getter t h = ((s, None), h ++ [Receive t])).
  { intros t. unfold getter, perform. now rewrite B. }
  unfold Enabled, Status, currentPower, totalEnergy, currents, voltages, meterValues,
    identify, phases1p3p, emState, bind, ret.
  rewrite G1, G2, G3, G4, G5, G6, !R.
  repeat split; intros;
    match goal with D : json_Unmarshal _ _ = _ |- _ => rewrite D end; reflexivity.
Qed.

(** X4. The power and the energy are two fields of the payload of one
    topic, and each call makes its own read of it: nothing is kept between
    the calls. *)
Theorem power_and_energy_read_one_topic topic emTopic wb h (s s' : string)
    (res res' : MeterValues) :
  wired topic emTopic wb ->
  let values := (topic ++ "/meter/values")%string in
  bus h (Receive values) = (s, None) ->
  json_Unmarshal s (zero : MeterValues) = (res, None) ->
  bus (h ++ [Receive values]) (Receive values) = (s', None) ->
  json_Unmarshal s' (zero : MeterValues) = (res', None) ->
  currentPower wb h = ((Power res, None), h ++ [Receive values]) /\
  totalEnergy wb h = ((EnergyAbs res, None), h ++ [Receive values]) /\
  totalEnergy wb (snd (currentPower wb h))
    = ((EnergyAbs res', None), h ++ [Receive values; Receive values]).
Proof.
  intros W values B D B' D'.
  destruct (wired_getters _ _ _ W) as (_ & _ & G3 & _).
  unfold currentPower, totalEnergy, bind, ret. rewrite G3.
  unfold getter, perform. fold values. rewrite B, D. cbn [fst snd].
  rewrite B', D', <- app_assoc. repeat split.
Qed.
End ReadErrors.

(** ** Whole amps *)

Lemma whole_amps_exact_from_spec (k : nat) :
  forall n : Z,
    whole_amps_exact_from k n = true ->
    forall m : Z, n <= m < n + Z.of_nat k -> whole_amps_exact m = true.
Proof.
  induction k as [|k IH]; intros n F m R; [lia|].
  cbn [whole_amps_exact_from] in F. apply andb_prop in F as (F0 & F).
  destruct (Z.eq_dec m n) as [->|N]; [exact F0|].
  apply (IH (n + 1) F). lia.
Qed.

Lemma whole_amps_exact_range : whole_amps_exact_from 2001 (-1000) = true.
Proof. vm_compute. reflexivity. Qed.

Section WholeAmps.
Context {mqtt_Config Other : Type} `{Ext : Externals mqtt_Config Other}.
Implicit Types (wb : @Warp2 mqtt_Config) (h : history mqtt_Config).

(** X6. For a whole number of amps between -1000 and 1000 the float
    arithmetic of [MaxCurrent] loses nothing: the value written is exactly
    1000 times the amps, and it is the value cached when the write
    succeeds. *)
Theorem MaxCurrent_whole_amps topic emTopic wb h (amps : Z) :
  wired topic emTopic wb ->
  -1000 <= amps <= 1000 ->
  let update := (topic ++ "/evse/external_current_update")%string in
  let err := snd (bus h (Publish update (1000 * amps))) in
  MaxCurrent amps wb h =
    ((err, match err with None => set_current wb (1000 * amps) | Some _ => wb end),
     h ++ [Publish update (1000 * amps)]).
Proof.
  intros W R update err.
  assert (E : int64_of_float64 (f64_mul (float64_of_int amps) f64_1e3) = 1000 * amps).
  { pose proof (whole_amps_exact_from_spec _ _ whole_amps_exact_range amps ltac:(lia)) as X.
    unfold whole_amps_exact in X. unfold int64_of_float64.
    destruct (float64_trunc _) as [z|]; [|discriminate X].
    apply andb_prop in X as (X & I). rewrite I. now apply Z.eqb_eq. }
  unfold MaxCurrent. rewrite (MaxCurrentMillis_wired _ _ _ _ _ W), E. reflexivity.
Qed.
End WholeAmps.

(** ** The requests of the operations *)

Section OperationRequests.
Context {mqtt_Config Other : Type} `{Ext : Externals mqtt_Config Other}.
Implicit Types (wb : @Warp2 mqtt_Config) (h : history mqtt_Config).

(** The history a read leaves, whatever it returns. *)
Lemma read_histories topic emTopic wb h :
  wired topic emTopic wb ->
  snd (Enabled wb h) = h ++ [Receive (topic ++ "/evse/external_current")] /\
  snd (Status wb h) = h ++ [Receive (topic ++ "/evse/state")] /\
  snd (currentPower wb h) = h ++ [Receive (topic ++ "/meter/values")] /\
  snd (totalEnergy wb h) = h ++ [Receive (topic ++ "/meter/values")] /\
  snd (currents wb h) = h ++ [Receive (topic ++ "/meter/all_values")] /\
  snd (voltages wb h) = h ++ [Receive (topic ++ "/meter/all_values")] /\
  snd (identify wb h) = h ++ [Receive (topic ++ "/charge_tracker/current_charge")].
Proof.
  intros W. destruct (wired_getters _ _ _ W) as (G1 & G2 & G3 & G4 & G5 & _).
  unfold Enabled, Status, currentPower, totalEnergy, currents, voltages, meterValues,
    identify, bind, ret.
  rewrite G1, G2, G3, G4, G5. unfold getter, perform.
  repeat split;
    match goal with
    | |- context [bus h ?r] => destruct (bus h r) as [s [e|]]; cbn [fst snd]
    end; try reflexivity;
    destruct (json_Unmarshal s zero) as [res [e|]]; cbn [fst snd]; try reflexivity.
  - destruct (Iec61851State res) as [|[p|p|]|p]; try reflexivity; destruct p; reflexivity.
  - destruct (len res <=? 5); reflexivity.
  - destruct (len res <=? 5); reflexivity.
Qed.

(** The history the phase switch leaves: the read of the state, and the
    write when the guard lets it through. *)
Lemma phases1p3p_history topic emTopic wb h (phases : Z) :
  wired topic emTopic wb ->
  let state := (emTopic ++ "/energy_manager/state")%string in
  let update := (emTopic ++ "/energy_manager/external_control_update")%string in
  snd (phases1p3p phases wb h) = h ++ [Receive state] \/
  snd (phases1p3p phases wb h) = h ++ [Receive state; Publish update phases].
Proof.
  intros W state update.
  unfold phases1p3p, emState, bind, ret.
  rewrite (wired_emStateG _ _ _ W), (wired_phasesS _ _ _ W).
  unfold getter, perform. fold state update.
  destruct (bus h (Receive state)) as [s [e|]]; [left; reflexivity|].
  destruct (json_Unmarshal s zero) as [res [e|]]; [left; reflexivity|].
  destruct (0 <? externalControl res); [left; reflexivity|].
  right. rewrite setter_eq, <- app_assoc. reflexivity.
Qed.

Lemma operation_request_read topic emTopic (t : string) :
  In t [ (topic ++ "/evse/external_current")%string;
         (topic ++ "/evse/state")%string;
         (topic ++ "/meter/values")%string;
         (topic ++ "/meter/all_values")%string;
         (topic ++ "/charge_tracker/current_charge")%string;
         (emTopic ++ "/energy_manager/state")%string ] ->
  operation_request (mqtt_Config := mqtt_Config) topic emTopic (Receive t) = true.
Proof.
  intros I. cbn [operation_request]. apply existsb_exists. exists t.
  split; [exact I | apply String.eqb_refl].
Qed.

Lemma operation_request_write topic emTopic (t : string) (v : Z) :
  In t [ (topic ++ "/evse/external_current_update")%string;
         (emTopic ++ "/energy_manager/external_control_update")%string ] ->
  operation_request (mqtt_Config := mqtt_Config) topic emTopic (Publish t v) = true.
Proof.
  intros I. cbn [operation_request]. apply existsb_exists. exists t.
  split; [exact I | apply String.eqb_refl].
Qed.

(** One operation: one or two requests, all of them its own. *)
Lemma exec_op_requests topic emTopic (o : op) wb h wb' h' :
  wired topic emTopic wb ->
  exec_op o wb h = (wb', h') ->
  exists new,
    h' = h ++ new /\
    forallb (operation_request topic emTopic) new = true /\
    (1 <= List.length new <= 2)%nat /\
    wired topic emTopic wb' /\
    features wb' = features wb.
Proof.
  intros W E.
  destruct (read_histories _ _ _ h W) as (H1 & H2 & H3 & H4 & H5 & H6 & H7).
  assert (one_read : forall t,
    wb' = wb -> h' = h ++ [Receive t] ->
    In t [ (topic ++ "/evse/external_current")%string;
           (topic ++ "/evse/state")%string;
           (topic ++ "/meter/values")%string;
           (topic ++ "/meter/all_values")%string;
           (topic ++ "/charge_tracker/current_charge")%string;
           (emTopic ++ "/energy_manager/state")%string ] ->
    exists new,
      h' = h ++ new /\
      forallb (operation_request topic emTopic) new = true /\
      (1 <= List.length new <= 2)%nat /\
      wired topic emTopic wb' /\
      features wb' = features wb).
  { intros t -> -> I. exists [Receive t]. cbn [forallb List.length].
    rewrite (operation_request_read _ _ _ I). repeat split; auto. }
  assert (one_write : forall (v : Z),
    (wb' = wb \/ wb' = set_current wb v) ->
    h' = h ++ [Publish (topic ++ "/evse/external_current_update") v] ->
    exists new,
      h' = h ++ new /\
      forallb (operation_request topic emTopic) new = true /\
      (1 <= List.length new <= 2)%nat /\
      wired topic emTopic wb' /\
      features wb' = features wb).
  { intros v C ->. eexists. split; [reflexivity|]. cbn [forallb List.length].
    rewrite operation_request_write by (cbn; auto).
    destruct C as [-> | ->]; repeat split; auto using wired_set_current. }
  destruct o as [c| | | | | |phases]; cbn [exec_op] in E; unfold bind, ret in E.
  - destruct c; cbn [exec] in E; unfold bind, ret in E.
    + rewrite (Enable_wired _ _ _ _ _ W) in E. injection E as <- <-.
      apply (one_write _ (or_introl eq_refl) eq_refl).
    + destruct (Enabled wb h) as [r g]; cbn [snd] in *. injection E as <- <-.
      apply (one_read _ eq_refl H1); cbn; auto 10.
    + destruct (Status wb h) as [r g]; cbn [snd] in *. injection E as <- <-.
      apply (one_read _ eq_refl H2); cbn; auto 10.
    + unfold MaxCurrent in E. rewrite (MaxCurrentMillis_wired _ _ _ _ _ W) in E.
      injection E as <- <-. eapply one_write; [|reflexivity].
      cbn [snd]. destruct (snd (bus h _)); auto.
    + rewrite (MaxCurrentMillis_wired _ _ _ _ _ W) in E.
      injection E as <- <-. eapply one_write; [|reflexivity].
      cbn [snd]. destruct (snd (bus h _)); auto.
  - destruct (currentPower wb h) as [r g]; cbn [snd] in *. injection E as <- <-.
    apply (one_read _ eq_refl H3); cbn; auto 10.
  - destruct (totalEnergy wb h) as [r g]; cbn [snd] in *. injection E as <- <-.
    apply (one_read _ eq_refl H4); cbn; auto 10.
  - destruct (currents wb h) as [r g]; cbn [snd] in *. injection E as <- <-.
    apply (one_read _ eq_refl H5); cbn; auto 10.
  - destruct (voltages wb h) as [r g]; cbn [snd] in *. injection E as <- <-.
    apply (one_read _ eq_refl H6); cbn; auto 10.
  - destruct (identify wb h) as [r g]; cbn [snd] in *. injection E as <- <-.
    apply (one_read _ eq_refl H7); cbn; auto 10.
  - pose proof (phases1p3p_history _ _ _ h phases W) as P.
    destruct (phases1p3p phases wb h) as [r g]; cbn [snd] in *. injection E as <- <-.
    destruct P as [-> | ->].
    + apply (one_read _ eq_refl eq_refl); cbn; auto 10.
    + eexists. split; [reflexivity|]. cbn [forallb List.length].
      rewrite operation_request_read by (cbn; auto 10).
      rewrite operation_request_write by (cbn; auto).
      repeat split; auto.
Qed.

(** X7. Along any sequence of operations of a constructed charger the
    adapter stays bound to its topics and its feature list is never touched
    again; every operation makes one or two requests, and each request is a
    read of one of the six state topics or a write to one of the two update
    topics: no operation subscribes, connects, probes the features or reads
    the user configuration. *)
Theorem operations_keep_to_their_topics topic emTopic (os : list op) :
  forall wb h wb' h',
    wired topic emTopic wb ->
    run_ops os wb h = (wb', h') ->
    exists new,
      h' = h ++ new /\
      forallb (operation_request topic emTopic) new = true /\
      (List.length os <= List.length new <= 2 * List.length os)%nat /\
      wired topic emTopic wb' /\
      features wb' = features wb.
Proof.
  induction os as [|o os IH]; intros wb h wb' h' W R.
  - cbn in R. injection R as <- <-. exists []. rewrite app_nil_r. repeat split; auto.
  - cbn [run_ops] in R. unfold bind in R.
    destruct (exec_op o wb h) as [wb1 h1] eqn:E.
    destruct (exec_op_requests _ _ _ _ _ _ _ W E) as (n1 & -> & A1 & L1 & W1 & F1).
    destruct (IH _ _ _ _ W1 R) as (n2 & -> & A2 & L2 & W2 & F2).
    exists (n1 ++ n2). rewrite app_assoc, forallb_app, A1, A2, length_app.
    cbn [List.length]. repeat split; auto; try lia. congruence.
Qed.
End OperationRequests.

(** ** The construction *)

Section Construction.
Context {mqtt_Config Other : Type} `{Ext : Externals mqtt_Config Other}.
Implicit Types (wb : @Warp2 mqtt_Config) (h : history mqtt_Config).

(** X8. [NewWarp2] makes its eleven requests in order and stops at the
    first one that fails: it then returns no adapter and the error of that
    request, all the requests before it having succeeded. When none fails
    it returns an adapter. In both cases it reads no payload and writes
    nothing to the device. *)
Theorem NewWarp2_requests_in_order (mqttconf : mqtt_Config) (topic emTopic : string)
    (timeout : Duration) h0 (owb : option Warp2) (err : option error) h :
  NewWarp2 mqttconf topic emTopic timeout h0 = ((owb, err), h) ->
  let reqs := NewWarp2_requests mqttconf topic emTopic timeout in
  (err = None -> owb <> None /\ h = h0 ++ reqs) /\
  (forall e, err = Some e ->
     owb = None /\
     exists before r after,
       reqs = before ++ r :: after /\
       h = h0 ++ before ++ [r] /\
       snd (bus (h0 ++ before) r) = Some e /\
       forall n, (n < List.length before)%nat ->
         snd (bus (h0 ++ firstn n reqs) (nth n reqs r)) = None) /\
  exists new, h = h0 ++ new /\ existsb device_traffic new = false.
Proof.
  intros R reqs. unfold NewWarp2 in R.
  repeat (rewrite step_eq in R;
    match type of R with
    | context [snd (bus ?g ?r)] =>
        let B := fresh "B" in
        destruct (snd (bus g r)) as [e'|] eqn:B;
        [ repeat rewrite <- app_assoc in *; cbn [app] in *;
          injection R as <- <- <-;
          split; [intros X; discriminate X|];
          split;
          [ intros e X; injection X as <-; split; [reflexivity|];
            match goal with
            | |- context [h0 ++ ?L = _] =>
                exists (removelast L), (last L (Connect mqttconf)),
                       (skipn (List.length L) reqs)
            end;
            cbn [removelast last skipn List.length app reqs NewWarp2_requests];
            rewrite ?app_nil_r;
            split; [reflexivity|]; split; [reflexivity|]; split; [assumption|];
            intros n L;
            repeat (destruct n as [|n];
                    [cbn [firstn nth]; rewrite ?app_nil_r; assumption|]);
            cbn [List.length] in L; lia
          | eexists; split; [reflexivity|]; reflexivity ]
        | ]
    end).
  repeat rewrite <- app_assoc in *; cbn [app] in *.
  unfold ret in R. injection R as <- <- <-.
  split; [intros _; split; [discriminate | reflexivity]|].
  split; [intros e X; discriminate X|].
  eexists; split; [reflexivity|]; reflexivity.
Qed.
End Construction.

(** ** The capability composer *)

Section Composer.
Context {mqtt_Config Other : Type} `{Ext : Externals mqtt_Config Other}.
Implicit Types (wb : @Warp2 mqtt_Config) (h : history mqtt_Config).

(** A feature query changes nothing of the adapter but its feature list. *)
Lemma hasFeature_adapter (root feature : string) (timeout : Duration) wb h
    (b : bool) wb' h' :
  hasFeature root feature timeout wb h = ((b, wb'), h') ->
  exists fs, wb' = set_features wb fs.
Proof.
  unfold hasFeature, bind, ret, getter, perform. intros E.
  destruct (features wb) as [l|] eqn:F.
  - injection E as _ <- _. exists (features wb). now rewrite set_features_same.
  - cbn [snd fst] in E. destruct (snd (bus h _)).
    + injection E as _ <- _. exists (features wb). now rewrite set_features_same.
    + destruct (bus _ (Receive _)) as [data [e|]].
      * injection E as _ <- _. exists (features wb). now rewrite set_features_same.
      * destruct (json_Unmarshal data None) as [fs [e|]];
          injection E as _ <- _; exists fs; reflexivity.
Qed.

Lemma hasFeature_wired topic emTopic (root feature : string) (timeout : Duration) wb h
    (b : bool) wb' h' :
  wired topic emTopic wb ->
  hasFeature root feature timeout wb h = ((b, wb'), h') ->
  wired topic emTopic wb' /\ current wb' = current wb.
Proof.
  intros W E. destruct (hasFeature_adapter _ _ _ _ _ _ _ _ E) as (fs & ->).
  split; [apply wired_set_features, W | reflexivity].
Qed.

Lemma hasFeatures_cons (root : string) (timeout : Duration) (q : string)
    (qs : list string) wb h :
  hasFeatures root timeout (q :: qs) wb h =
    let '((b, wb1), g1) := hasFeature root q timeout wb h in
    let '((bs, wb2), g2) := hasFeatures root timeout qs wb1 g1 in
    ((b :: bs, wb2), g2).
Proof.
  cbn [hasFeatures]. unfold bind, ret.
  destruct (hasFeature root q timeout wb h) as [[b wb1] g1].
  destruct (hasFeatures root timeout qs wb1 g1) as [[bs wb2] g2]. reflexivity.
Qed.

(** X9. An error of the decoding of the configuration is returned with no
    charger and without any request to the bus; an error of [NewWarp2] is
    returned with no charger and without any feature probe. *)
Theorem NewWarp2FromConfig_returns_errors (other : Other) h0 :
  let defaults := {| Config := mqtt_Config_zero; Topic := warp_RootTopic;
                     EnergyManager := ""; Timeout := warp_Timeout |} in
  (forall conf e,
     DecodeOther other defaults = (conf, Some e) ->
     NewWarp2FromConfig other h0 = ((None, Some e), h0)) /\
  (forall conf e h1,
     DecodeOther other defaults = (conf, None) ->
     NewWarp2 (Config conf) (Topic conf) (EnergyManager conf) (Timeout conf) h0
       = ((None, Some e), h1) ->
     NewWarp2FromConfig other h0 = ((None, Some e), h1)).
Proof.
  intros defaults. split.
  - intros conf e D. unfold NewWarp2FromConfig. fold defaults. rewrite D. reflexivity.
  - intros conf e h1 D N. unfold NewWarp2FromConfig. fold defaults. rewrite D.
    unfold bind. rewrite N. reflexivity.
Qed.

(** X10. Once the configuration is decoded and the adapter constructed,
    the composer returns a charger and no error. Its base is the adapter as
    the three feature queries leave it, with 6000 mA cached. Power and
    energy metering are exposed together, exactly when the query for the
    meter feature answers true; phase currents and voltages together,
    exactly when the query for the phase meter feature does; the
    identification exactly when the query for the NFC feature does. *)
Theorem NewWarp2FromConfig_capabilities (other : Other) h0 (conf : cc mqtt_Config)
    wb h1 (meter phases nfc : bool) wb3 h3 :
  DecodeOther other {| Config := mqtt_Config_zero; Topic := warp_RootTopic;
                       EnergyManager := ""; Timeout := warp_Timeout |} = (conf, None) ->
  NewWarp2 (Config conf) (Topic conf) (EnergyManager conf) (Timeout conf) h0
    = ((Some wb, None), h1) ->
  hasFeatures (Topic conf) (Timeout conf)
    [warp_FeatureMeter; warp_FeatureMeterPhases; warp_FeatureNfc] wb h1
    = (([meter; phases; nfc], wb3), h3) ->
  exists charger h,
    NewWarp2FromConfig other h0 = ((Some charger, None), h) /\
    base charger = wb3 /\
    current wb3 = 6000 /\
    wired (Topic conf) (EnergyManager conf) wb3 /\
    exposed (CurrentPower charger) = meter /\
    exposed (TotalEnergy charger) = meter /\
    exposed (Currents charger) = phases /\
    exposed (Voltages charger) = phases /\
    exposed (Identify charger) = nfc.
Proof.
  intros D N HF. destruct (NewWarp2_ok _ _ _ _ _ _ _ N) as (W & _ & C).
  rewrite hasFeatures_cons in HF.
  destruct (hasFeature _ _ _ wb h1) as [[b1 wb1] g1] eqn:E1.
  rewrite hasFeatures_cons in HF.
  destruct (hasFeature _ _ _ wb1 g1) as [[b2 wb2] g2] eqn:E2.
  rewrite hasFeatures_cons in HF.
  destruct (hasFeature _ _ _ wb2 g2) as [[b3 wb3'] g3] eqn:E3.
  cbn [hasFeatures] in HF. unfold ret in HF. injection HF as -> -> -> -> ->.
  destruct (hasFeature_wired _ _ _ _ _ _ _ _ _ _ W E1) as (W1 & C1).
  destruct (hasFeature_wired _ _ _ _ _ _ _ _ _ _ W1 E2) as (W2 & C2).
  destruct (hasFeature_wired _ _ _ _ _ _ _ _ _ _ W2 E3) as (W3 & C3).
  unfold NewWarp2FromConfig. rewrite D. unfold bind at 1. rewrite N.
  unfold bind at 1. rewrite E1. unfold bind at 1. rewrite E2.
  unfold bind at 1. rewrite E3. unfold bind at 1.
  match goal with
  | |- context [?c h3] => destruct (c h3) as [ph hf]
  end.
  eexists _, _. split; [reflexivity|]. cbn [base CurrentPower TotalEnergy Currents
    Voltages Identify decorateWarp2].
  repeat split; try assumption; try congruence;
    try (destruct meter; reflexivity); try (destruct phases; reflexivity);
    destruct nfc; reflexivity.
Qed.

(** X11. The phase switch is exposed exactly when an energy manager topic
    is configured and, at construction, the read of its state succeeds,
    decodes, and reports a control mode other than 1. Without an energy
    manager topic its state is not read at all; with one it is read once,
    after the feature queries. *)
Theorem phase_switch_exposure (other : Other) h0 (conf : cc mqtt_Config)
    wb h1 (answers : list bool) wb3 h3 (charger : Charger) h :
  DecodeOther other {| Config := mqtt_Config_zero; Topic := warp_RootTopic;
                       EnergyManager := ""; Timeout := warp_Timeout |} = (conf, None) ->
  NewWarp2 (Config conf) (Topic conf) (EnergyManager conf) (Timeout conf) h0
    = ((Some wb, None), h1) ->
  hasFeatures (Topic conf) (Timeout conf)
    [warp_FeatureMeter; warp_FeatureMeterPhases; warp_FeatureNfc] wb h1
    = ((answers, wb3), h3) ->
  NewWarp2FromConfig other h0 = ((Some charger, None), h) ->
  let state := (EnergyManager conf ++ "/energy_manager/state")%string in
  (EnergyManager conf = "" -> exposed (Phases1p3p charger) = false /\ h = h3) /\
  (EnergyManager conf <> "" ->
     h = h3 ++ [Receive state] /\
     (exposed (Phases1p3p charger) = true <->
      exists s res,
        bus h3 (Receive state) = (s, None) /\
        json_Unmarshal s (zero : EmState) = (res, None) /\
        externalControl res <> 1)).
Proof.
  intros D N HF R state. destruct (NewWarp2_ok _ _ _ _ _ _ _ N) as (W & _ & _).
  rewrite hasFeatures_cons in HF.
  destruct (hasFeature _ _ _ wb h1) as [[b1 wb1] g1] eqn:E1.
  rewrite hasFeatures_cons in HF.
  destruct (hasFeature _ _ _ wb1 g1) as [[b2 wb2] g2] eqn:E2.
  rewrite hasFeatures_cons in HF.
  destruct (hasFeature _ _ _ wb2 g2) as [[b3 wb3'] g3] eqn:E3.
  cbn [hasFeatures] in HF. unfold ret in HF. injection HF as _ -> ->.
  destruct (hasFeature_wired _ _ _ _ _ _ _ _ _ _ W E1) as (W1 & _).
  destruct (hasFeature_wired _ _ _ _ _ _ _ _ _ _ W1 E2) as (W2 & _).
  destruct (hasFeature_wired _ _ _ _ _ _ _ _ _ _ W2 E3) as (W3 & _).
  unfold NewWarp2FromConfig in R. rewrite D in R. unfold bind at 1 in R. rewrite N in R.
  unfold bind at 1 in R. rewrite E1 in R. unfold bind at 1 in R. rewrite E2 in R.
  unfold bind at 1 in R. rewrite E3 in R. unfold bind at 1 in R.
  destruct (String.eqb_spec (EnergyManager conf) "") as [EM|EM].
  - unfold ret in R. injection R as <- <-. split; [auto | intros X; contradiction].
  - split; [intros X; contradiction|]. intros _.
    unfold bind, ret, emState in R.
    rewrite (wired_emStateG _ _ _ W3) in R. unfold getter, perform, bind, ret in R.
    cbn beta in R. fold state in R.
    destruct (bus h3 (Receive state)) as [s [e|]] eqn:B.
    + injection R as <- <-. split; [reflexivity|]. cbn. split; [discriminate|].
      intros (s' & res & X & _). discriminate X.
    + destruct (json_Unmarshal s zero) as [res [e|]] eqn:U.
      * injection R as <- <-. split; [reflexivity|]. cbn. split; [discriminate|].
        intros (s' & res' & X & Y & _). injection X as <-. rewrite U in Y. discriminate Y.
      * destruct (Z.eqb_spec (externalControl res) 1) as [M|M];
          injection R as <- <-; (split; [reflexivity|]); cbn; split.
        -- discriminate.
        -- intros (s' & res' & X & Y & Z). injection X as <-. rewrite U in Y.
           injection Y as <-. contradiction.
        -- intros _. exists s, res. auto.
        -- reflexivity.
Qed.

(** X12. When the first probe of the feature topic delivers a list, any
    sequence of feature queries costs one subscription and one read in all:
    the list is stored on the adapter, and every query, the first included,
    is answered by the membership of its token in that list. *)
Theorem discovery_probes_once (root : string) (timeout : Duration) wb h
    (data : string) (fs : list string) (query : string) (queries : list string) :
  features wb = None ->
  let topic := (root ++ "/info/features")%string in
  snd (bus h (Subscribe topic timeout)) = None ->
  bus (h ++ [Subscribe topic timeout]) (Receive topic) = (data, None) ->
  json_Unmarshal data (None : option (list string)) = (Some fs, None) ->
  hasFeatures root timeout (query :: queries) wb h
    = ((map (fun f => existsb (String.eqb f) fs) (query :: queries),
        set_features wb (Some fs)),
       h ++ [Subscribe topic timeout; Receive topic]) /\
  (forall f, existsb (String.eqb f) fs = true <-> In f fs).
Proof.
  intros F topic S B U. split.
  - cbn [hasFeatures map]. unfold bind at 1.
    assert (E : hasFeature root query timeout wb h
                = ((existsb (String.eqb query) fs, set_features wb (Some fs)),
                   h ++ [Subscribe topic timeout; Receive topic])).
    { unfold hasFeature, bind, ret, getter, perform. rewrite F. fold topic.
      cbn [snd fst]. rewrite S, B, U, <- app_assoc. reflexivity. }
    rewrite E. unfold bind, ret.
    rewrite hasFeatures_cached by (cbn; discriminate). reflexivity.
  - intros f. rewrite existsb_exists. split.
    + intros (x & I & Q). apply String.eqb_eq in Q. now subst.
    + intros I. exists f. split; [exact I | apply String.eqb_refl].
Qed.
End Composer.

(** * The further properties on the simulated device *)

Lemma sim_wired_with (E : Externals unit (cc unit)) (fs : option (list string)) (curr : Z) :
  @wired unit (cc unit) E "warp" "wem" (sim_wb_with E fs curr).
Proof. reflexivity. Qed.

(** X2 on a device that does not answer. *)
Lemma read_failure_surfaces_witness :
  @Enabled unit (cc unit) (sim sim_offline) (sim_wb sim_offline None 6000) []
    = ((false, Some "timeout"), [Receive "warp/evse/external_current"]) /\
  @currents unit (cc unit) (sim sim_offline) (sim_wb sim_offline None 6000) []
    = (Some (f64_0, f64_0, f64_0, Some "timeout"), [Receive "warp/meter/all_values"]) /\
  @phases1p3p unit (cc unit) (sim sim_offline) 3 (sim_wb sim_offline None 6000) []
    = (Some "timeout", [Receive "wem/energy_manager/state"]).
Proof.
  pose proof (read_failure_surfaces (Ext := sim sim_offline) "warp" "wem"
                (sim_wb sim_offline None 6000) [] "timeout" 3
                (sim_wired _ _ _) (fun t => eq_refl)) as X.
  split; [apply X|]. split; apply X.
Defined.

(** X3 on a device that delivers a payload that is no JSON. *)
Lemma decode_failure_surfaces_witness :
  fst (@Status unit (cc unit) sim_garbage (sim_wb_with sim_garbage None 6000) [])
    = (StatusNone, Some "invalid character looking for beginning of value") /\
  fst (@voltages unit (cc unit) sim_garbage (sim_wb_with sim_garbage None 6000) [])
    = Some (f64_0, f64_0, f64_0, Some "invalid character looking for beginning of value").
Proof.
  pose proof (decode_failure_surfaces (Ext := sim_garbage) "warp" "wem"
                (sim_wb_with sim_garbage None 6000) [] "garbage"
                "invalid character looking for beginning of value" 3
                (sim_wired_with _ _ _) (fun t => eq_refl)) as X.
  split.
  - exact (proj1 (proj2 X) _ eq_refl).
  - exact (proj2 (proj1 (proj2 (proj2 (proj2 X))) _ eq_refl)).
Defined.

(** X4 on a meter read twice. *)
Lemma power_and_energy_read_one_topic_witness :
  @currentPower unit (cc unit) sim_metering (sim_wb_with sim_metering None 6000) []
    = ((float64_of_int 11000, None), [Receive "warp/meter/values"]) /\
  @totalEnergy unit (cc unit) sim_metering (sim_wb_with sim_metering None 6000)
    [Receive "warp/meter/values"]
    = ((float64_of_int 1235, None),
       [Receive "warp/meter/values"; Receive "warp/meter/values"]).
Proof.
  pose proof (power_and_energy_read_one_topic (Ext := sim_metering) "warp" "wem"
                (sim_wb_with sim_metering None 6000) [] "{11000,1234}" "{11000,1235}"
                {| Power := float64_of_int 11000; EnergyAbs := float64_of_int 1234 |}
                {| Power := float64_of_int 11000; EnergyAbs := float64_of_int 1235 |}
                (sim_wired_with _ _ _) eq_refl eq_refl eq_refl eq_refl) as X.
  split; [apply X|]. exact (proj2 (proj2 X)).
Defined.

(** X6 on 16 A. *)
Lemma MaxCurrent_whole_amps_witness :
  @MaxCurrent unit (cc unit) (sim sim_offline) 16 (sim_wb sim_offline None 6000) []
    = ((None, sim_wb sim_offline None 16000),
       [Publish "warp/evse/external_current_update" 16000]).
Proof.
  apply (MaxCurrent_whole_amps (Ext := sim sim_offline) "warp" "wem"
           (sim_wb sim_offline None 6000) [] 16 (sim_wired _ _ _)).
  split; discriminate.
Defined.

(** X7 on a charging car: an enable, a read of the phase currents, a phase
    switch and an identification. *)
Lemma operations_keep_to_their_topics_witness :
  let ops := [OpCall (CallEnable true); OpCurrents; OpPhases1p3p 3; OpIdentify] in
  let r := @run_ops unit (cc unit) (sim sim_charging) ops
             (sim_wb sim_charging None 6000) [] in
  snd r = [Publish "warp/evse/external_current_update" 6000;
           Receive "warp/meter/all_values";
           Receive "wem/energy_manager/state";
           Publish "wem/energy_manager/external_control_update" 3;
           Receive "warp/charge_tracker/current_charge"] /\
  exists new,
    snd r = [] ++ new /\
    forallb (operation_request "warp" "wem") new = true /\
    (4 <= List.length new <= 8)%nat /\
    wired (Ext := sim sim_charging) "warp" "wem" (fst r) /\
    features (fst r) = None.
Proof.
  cbv zeta. split; [reflexivity|].
  exact (operations_keep_to_their_topics (Ext := sim sim_charging) "warp" "wem"
           [OpCall (CallEnable true); OpCurrents; OpPhases1p3p 3; OpIdentify]
           (sim_wb sim_charging None 6000) [] _ _ (sim_wired _ _ _) eq_refl).
Defined.

(** X8 on a broker that accepts everything, and on one that refuses the
    subscription to the state topic. *)
Lemma NewWarp2_requests_in_order_witness :
  snd (sim_new sim_offline)
    = [] ++ @NewWarp2_requests unit tt "warp" "wem" (30 * 1000000000) /\
  fst (@NewWarp2 unit (cc unit) sim_no_state tt "warp" "wem" (30 * 1000000000) [])
    = (None, Some "subscribe failed") /\
  snd (@NewWarp2 unit (cc unit) sim_no_state tt "warp" "wem" (30 * 1000000000) [])
    = [Connect tt;
       Subscribe "warp/evse/low_level_state" (30 * 1000000000);
       Subscribe "warp/evse/external_current" 0;
       Subscribe "warp/evse/state" 0].
Proof.
  split.
  - exact (proj2 (proj1
      (NewWarp2_requests_in_order (Ext := sim sim_offline) tt "warp" "wem"
         (30 * 1000000000) [] (Some (sim_wb sim_offline None 6000)) None
         (snd (sim_new sim_offline)) eq_refl) eq_refl)).
  - destruct (proj1 (proj2
      (NewWarp2_requests_in_order (Ext := sim_no_state) tt "warp" "wem"
         (30 * 1000000000) [] None (Some "subscribe failed")
         [Connect tt;
          Subscribe "warp/evse/low_level_state" (30 * 1000000000);
          Subscribe "warp/evse/external_current" 0;
          Subscribe "warp/evse/state" 0] eq_refl)) "subscribe failed" eq_refl)
      as (_ & _).
    split; reflexivity.
Defined.

(** X9 on a configuration that does not decode, and on a broker that
    refuses a subscription of the constructor. *)
Lemma NewWarp2FromConfig_returns_errors_witness :
  @NewWarp2FromConfig unit (cc unit) sim_no_config sim_cc []
    = ((None, Some "cannot decode configuration"), []) /\
  @NewWarp2FromConfig unit (cc unit) sim_no_state sim_cc []
    = ((None, Some "subscribe failed"),
       [Connect tt;
        Subscribe "warp/evse/low_level_state" (30 * 1000000000);
        Subscribe "warp/evse/external_current" 0;
        Subscribe "warp/evse/state" 0]).
Proof.
  split.
  - exact (proj1 (NewWarp2FromConfig_returns_errors (Ext := sim_no_config) sim_cc [])
             _ _ eq_refl).
  - exact (proj2 (NewWarp2FromConfig_returns_errors (Ext := sim_no_state) sim_cc [])
             sim_cc _ _ eq_refl eq_refl).
Defined.

(** X10 on a device with all three features. *)
Lemma NewWarp2FromConfig_capabilities_witness :
  exists charger h,
    sim_new_from_config sim_charging = ((Some charger, None), h) /\
    base charger
      = sim_wb sim_charging (Some ["meter"; "meter_phases"; "nfc"]) 6000 /\
    exposed (CurrentPower charger) = true /\
    exposed (TotalEnergy charger) = true /\
    exposed (Currents charger) = true /\
    exposed (Voltages charger) = true /\
    exposed (Identify charger) = true.
Proof.
  destruct (NewWarp2FromConfig_capabilities (Ext := sim sim_charging) sim_cc [] sim_cc
              (sim_wb sim_charging None 6000) (snd (sim_new sim_charging))
              true true true
              (sim_wb sim_charging (Some ["meter"; "meter_phases"; "nfc"]) 6000)
              (snd (sim_new sim_charging)
                 ++ [Subscribe "warp/info/features" (30 * 1000000000);
                     Receive "warp/info/features"])
              eq_refl eq_refl eq_refl)
    as (charger & h & E & B & _ & _ & X).
  exists charger, h. split; [exact E|]. split; [exact B | exact X].
Defined.

(** X11 on an energy manager that reports the control mode 3 at
    construction: the phase switch is exposed. *)
Lemma phase_switch_exposure_witness :
  option_map (fun c => exposed (Phases1p3p c))
    (fst (fst (sim_new_from_config sim_switching))) = Some true.
Proof.
  unfold sim_new_from_config.
  destruct (@NewWarp2FromConfig unit (cc unit) (sim sim_switching) sim_cc [])
    as [[[charger|] [e|]] h] eqn:R; try discriminate R.
  cbn [fst option_map]. f_equal.
  pose proof (phase_switch_exposure (Ext := sim sim_switching) sim_cc [] sim_cc
                (sim_wb sim_switching None 6000) (snd (sim_new sim_switching))
                [true; true; true]
                (sim_wb sim_switching (Some ["meter"; "meter_phases"; "nfc"]) 6000)
                (snd (sim_new sim_switching)
                   ++ [Subscribe "warp/info/features" (30 * 1000000000);
                       Receive "warp/info/features"])
                charger h eq_refl eq_refl eq_refl R) as X.
  apply (proj2 X); [discriminate|].
  exists (json_field "external_control" "3"), {| externalControl := 3 |}.
  repeat split. discriminate.
Defined.

(** X12 on a device that answers the first probe. *)
Lemma discovery_probes_once_witness :
  @hasFeatures unit (cc unit) (sim sim_charging) "warp" (30 * 1000000000)
    ["meter"; "phase_switch"; "nfc"] (sim_wb sim_charging None 6000) []
  = (([true; false; true],
      sim_wb sim_charging (Some ["meter"; "meter_phases"; "nfc"]) 6000),
     [Subscribe "warp/info/features" (30 * 1000000000); Receive "warp/info/features"]).
Proof.
  exact (proj1
    (discovery_probes_once (Ext := sim sim_charging) "warp" (30 * 1000000000)
       (sim_wb sim_charging None 6000) []
       (json_array [json_string "meter"; json_string "meter_phases"; json_string "nfc"])
       ["meter"; "meter_phases"; "nfc"] "meter" ["phase_switch"; "nfc"]
       eq_refl eq_refl eq_refl eq_refl)).
Defined.
